(** * agnoBridge: the in-memory REST facade of server/agno/agnoBridge.py

    A shallow embedding of the Flask handlers and of the mock Agno classes
    they drive, followed by the properties of the registries, of the model
    and agent stubs and of the bounded memory store.

    The handlers are dynamically typed: every value they touch comes out of
    [request.json], so the embedding works on JSON values and writes out the
    Python operations the handlers apply to them ([in], subscription,
    [.get], [.lower], truthiness, iteration, hashing, [str]), including the
    exceptions these raise on the wrong kind of value. *)

From Stdlib Require Import ZArith QArith List String Ascii Bool Lia.
From Stdlib Require Import DecimalString.
Import ListNotations.

Local Open Scope string_scope.
Local Open Scope Z_scope.

(* ===================================================================== *)
(** ** Python values that come out of a JSON body *)
(* ===================================================================== *)

(** What [json.loads] builds: [None], [bool], [int], [float], [str], [list]
    and [dict] with string keys.  A float is carried by its exact rational
    value (every finite binary64 is one); NaN and the infinities are not
    modelled.  A [str] is carried as a [string]: exact for ASCII text.  The
    field list of [JObj] stands for the dict in which a key has the value of
    its first occurrence. *)
#[warnings="-register-all"]
Inductive json : Type :=
| JNull
| JBool (b : bool)
| JInt (n : Z)
| JFloat (q : Q)
| JStr (s : string)
| JArr (items : list json)
| JObj (fields : list (string * json)).

(** The exceptions the handlers can run into. *)
Inductive exn : Type :=
| TypeError
| AttributeError
| KeyError
| IndexError.

(** A Python computation: a value, or a raised exception. *)
Inductive py (A : Type) : Type :=
| Ok (a : A)
| Raise (e : exn).

Arguments Ok {A} a.
Arguments Raise {A} e.

Definition bind {A B : Type} (c : py A) (k : A -> py B) : py B :=
  match c with
  | Ok a => k a
  | Raise e => Raise e
  end.

Notation "x <- c ;; k" := (bind c (fun x => k))
  (at level 61, c at next level, right associativity).

(** *** Strings *)

(** [str.lower] on ASCII letters.  The handlers only compare the lowered
    string with the ASCII literals 'openai' and 'anthropic', and no string
    with a character outside ASCII lowers to one of these two words, so the
    comparison comes out as in Python for every input. *)
Definition lower_ascii (c : ascii) : ascii :=
  let n := nat_of_ascii c in
  if ((65 <=? n)%nat && (n <=? 90)%nat)%bool then ascii_of_nat (n + 32) else c.

Fixpoint lower (s : string) : string :=
  match s with
  | EmptyString => EmptyString
  | String c t => String (lower_ascii c) (lower t)
  end.

(** [needle in hay] on two strings. *)
Fixpoint is_substring (needle hay : string) : bool :=
  (String.prefix needle hay ||
   match hay with
   | EmptyString => false
   | String _ t => is_substring needle t
   end)%bool.

(** The characters of a string, each a string of length one. *)
Fixpoint chars (s : string) : list json :=
  match s with
  | EmptyString => []
  | String c t => JStr (String c EmptyString) :: chars t
  end.

(** *** Dicts built from a JSON object *)

Fixpoint lookup (k : string) (fields : list (string * json)) : option json :=
  match fields with
  | [] => None
  | (k', v) :: rest => if String.eqb k' k then Some v else lookup k rest
  end.

Definition is_some {A : Type} (o : option A) : bool :=
  match o with Some _ => true | None => false end.

(** The keys in dict order, each once. *)
Fixpoint keys (fields : list (string * json)) : list string :=
  match fields with
  | [] => []
  | (k, _) :: rest =>
      k :: filter (fun k' => negb (String.eqb k k')) (keys rest)
  end.

(** *** Operators *)

(** ['k' in c]. *)
Definition py_contains (k : string) (c : json) : py bool :=
  match c with
  | JObj fields => Ok (is_some (lookup k fields))
  | JArr items =>
      Ok (existsb (fun v => match v with
                            | JStr s => String.eqb s k
                            | _ => false
                            end) items)
  | JStr s => Ok (is_substring k s)
  | _ => Raise TypeError
  end.

(** [c['k']]. *)
Definition py_getitem (c : json) (k : string) : py json :=
  match c with
  | JObj fields =>
      match lookup k fields with
      | Some v => Ok v
      | None => Raise KeyError
      end
  | _ => Raise TypeError
  end.

(** [c['k'] if 'k' in c else d]: the membership test runs first. *)
Definition item_or (c : json) (k : string) (d : json) : py json :=
  b <- py_contains k c ;;
  if b then py_getitem c k else Ok d.

(** [c.get('k', d)]. *)
Definition py_get (c : json) (k : string) (d : json) : py json :=
  match c with
  | JObj fields =>
      match lookup k fields with
      | Some v => Ok v
      | None => Ok d
      end
  | _ => Raise AttributeError
  end.

(** [v.lower()]. *)
Definition py_lower (v : json) : py string :=
  match v with
  | JStr s => Ok (lower s)
  | _ => Raise AttributeError
  end.

(** [for x in v]. *)
Definition py_iter (v : json) : py (list json) :=
  match v with
  | JArr items => Ok items
  | JStr s => Ok (chars s)
  | JObj fields => Ok (map JStr (keys fields))
  | _ => Raise TypeError
  end.

(** [bool(v)], as [if v:] and [v and ...] take it. *)
Definition py_truthy (v : json) : bool :=
  match v with
  | JNull => false
  | JBool b => b
  | JInt n => negb (Z.eqb n 0)
  | JFloat q => negb (Qeq_bool q 0)
  | JStr s => negb (String.eqb s "")
  | JArr items => match items with [] => false | _ => true end
  | JObj fields => match fields with [] => false | _ => true end
  end.

(** The numeric value of [bool], [int] and [float]. *)
Definition num_of (v : json) : option Q :=
  match v with
  | JBool b => Some (inject_Z (if b then 1 else 0))
  | JInt n => Some (inject_Z n)
  | JFloat q => Some q
  | _ => None
  end.

(** [n >= v] for an [int] n, as in [len(self.memories) >= self.limit]. *)
Definition py_int_ge (n : Z) (v : json) : py bool :=
  match num_of v with
  | Some q => Ok (Qle_bool q (inject_Z n))
  | None => Raise TypeError
  end.

(** *** Registries: dicts keyed by values taken from the request *)

(** Lists and dicts cannot be hashed. *)
Definition hashable (k : json) : bool :=
  match k with
  | JArr _ | JObj _ => false
  | _ => true
  end.

(** [a == b] on hashable values: numbers by value ([True == 1 == 1.0]). *)
Definition py_eqb (a b : json) : bool :=
  match a, b with
  | JNull, JNull => true
  | JStr s, JStr t => String.eqb s t
  | _, _ =>
      match num_of a, num_of b with
      | Some x, Some y => Qeq_bool x y
      | _, _ => false
      end
  end.

(** A dict in insertion order.  Assigning to a key that is present keeps
    the entry's place and its first key object. *)
Definition dict (V : Type) : Type := list (json * V).

Fixpoint dict_find {V : Type} (k : json) (d : dict V) : option V :=
  match d with
  | [] => None
  | (k', v) :: rest => if py_eqb k' k then Some v else dict_find k rest
  end.

Fixpoint dict_set {V : Type} (k : json) (v : V) (d : dict V) : dict V :=
  match d with
  | [] => [(k, v)]
  | (k', v') :: rest =>
      if py_eqb k' k then (k', v) :: rest else (k', v') :: dict_set k v rest
  end.

Definition dict_keys {V : Type} (d : dict V) : list json := map fst d.

(** Hashing the key comes before any dict operation. *)
Definition py_hash (k : json) : py unit :=
  if hashable k then Ok tt else Raise TypeError.

(** [k in d]. *)
Definition dict_contains {V : Type} (k : json) (d : dict V) : py bool :=
  _ <- py_hash k ;; Ok (is_some (dict_find k d)).

(** [d[k] = v]. *)
Definition dict_assign {V : Type} (k : json) (v : V) (d : dict V)
  : py (dict V) :=
  _ <- py_hash k ;; Ok (dict_set k v d).

(** [d[k]]. *)
Definition dict_getitem {V : Type} (k : json) (d : dict V) : py V :=
  _ <- py_hash k ;;
  match dict_find k d with
  | Some v => Ok v
  | None => Raise KeyError
  end.

(** [d.get(k)]. *)
Definition dict_get {V : Type} (k : json) (d : dict V) : py (option V) :=
  _ <- py_hash k ;; Ok (dict_find k d).

(* ===================================================================== *)
(** ** The mock Agno classes *)
(* ===================================================================== *)

(** [OpenAIChat] and [Claude] have the same attributes and differ in the
    reply of [response]; [cls] says which class an object is of. *)
Inductive provider : Type :=
| OpenAIChat
| Claude.

Record Model : Type := mkModel {
  cls : provider;
  m_id : json;
  m_name : json;
  api_key : json;
  temperature : json;
  max_tokens : json;
  system_prompt : json
}.

Record Message : Type := mkMessage {
  role : json;
  content : json
}.

Record Response : Type := mkResponse {
  message : Message;
  tool_calls : json
}.

(** [model.response(messages)]: the messages are not looked at. *)
Definition response (self : Model) (messages : list Message) : Response :=
  match cls self with
  | OpenAIChat =>
      mkResponse
        (mkMessage (JStr "assistant")
           (JStr "This is a response from the simulated OpenAI model."))
        JNull
  | Claude =>
      mkResponse
        (mkMessage (JStr "assistant")
           (JStr "This is a response from the simulated Claude model."))
        JNull
  end.

Record Function : Type := mkFunction {
  f_name : json;
  description : json;
  parameters : json
}.

(** [Function(name, description, parameters)]: [parameters or {}]. *)
Definition new_Function (name description params : json) : Function :=
  mkFunction name description (if py_truthy params then params else JObj []).

Record Agent : Type := mkAgent {
  name : json;
  agent_id : json;
  model : option Model;
  system_message : json;
  a_tools : list Function;
  user_message : json;
  session_id : json
}.

(** [Agent(...)]: [tools or []], no user message, no session. *)
Definition new_Agent (name agent_id : json) (model : option Model)
    (system_message : json) (tools : option (list Function)) : Agent :=
  mkAgent name agent_id model system_message
    (match tools with Some l => l | None => [] end) JNull JNull.

Definition set_user_message (a : Agent) (v : json) : Agent :=
  mkAgent (name a) (agent_id a) (model a) (system_message a) (a_tools a)
    v (session_id a).

Definition set_session_id (a : Agent) (v : json) : Agent :=
  mkAgent (name a) (agent_id a) (model a) (system_message a) (a_tools a)
    (user_message a) v.

Record Memory : Type := mkMemory {
  mem_content : json
}.

Record MemoryManager : Type := mkMemoryManager {
  mm_model : option Model;
  limit : json;
  memories : list Memory
}.

(** [MemoryManager(model, limit)]. *)
Definition new_MemoryManager (model : option Model) (limit : json)
  : MemoryManager :=
  mkMemoryManager model limit [].

(** [self.memories.pop(0)]. *)
Definition pop0 (l : list Memory) : py (list Memory) :=
  match l with
  | [] => Raise IndexError
  | _ :: rest => Ok rest
  end.

(** [MemoryManager.add_memory]: the result and the manager afterwards. *)
Definition MemoryManager_add_memory (self : MemoryManager) (c : json)
  : py (bool * MemoryManager) :=
  full <- py_int_ge (Z.of_nat (List.length (memories self))) (limit self) ;;
  kept <- (if full then pop0 (memories self) else Ok (memories self)) ;;
  Ok (true,
      mkMemoryManager (mm_model self) (limit self)
        (kept ++ [mkMemory c])%list).

(** The float the literal [0.7] denotes, as an exact fraction. *)
Definition float_0_7 : Q := 3152519739159347 # 4503599627370496.

(* ===================================================================== *)
(** ** The application: registries and request handlers *)
(* ===================================================================== *)

(** The four module-level dicts. *)
Record state : Type := mkState {
  models : dict Model;
  agents : dict Agent;
  memory_managers : dict MemoryManager;
  tools : dict Function
}.

Definition set_models (st : state) (d : dict Model) : state :=
  mkState d (agents st) (memory_managers st) (tools st).

Definition set_agents (st : state) (d : dict Agent) : state :=
  mkState (models st) d (memory_managers st) (tools st).

Definition set_memory_managers (st : state) (d : dict MemoryManager) : state :=
  mkState (models st) (agents st) d (tools st).

Definition set_tools (st : state) (d : dict Function) : state :=
  mkState (models st) (agents st) (memory_managers st) d.

(** The registries at start-up. *)
Definition initial : state := mkState [] [] [] [].

(** What [request.json] does: it yields the parsed body, or raises. *)
Inductive request : Type :=
| Body (j : json)
| BadBody (msg : string).

(** What a handler answers: [jsonify(body)] with a status code, or the
    answer of its [except] clause, status 500 with the text of the exception
    and a traceback (their wording is not modelled). *)
Inductive reply : Type :=
| Reply (status : Z) (body : json)
| ServerError (e : exn).

Definition status_code (r : reply) : Z :=
  match r with
  | Reply status _ => status
  | ServerError _ => 500
  end.

Definition parse_json_params (req : request) : json :=
  match req with
  | Body j => j
  | BadBody msg => JObj [("error", JStr msg)]
  end.

(** [try: ... except Exception]: no handler changes a registry before the
    last statement that can raise, so a raise leaves the state as it was. *)
Definition try_except (st : state) (c : py (reply * state)) : reply * state :=
  match c with
  | Ok r => r
  | Raise e => (ServerError e, st)
  end.

Section Handlers.

(** [os.environ.get]. *)
Variable environ : string -> option string.

(** [str] of a float, a list or a dict: Python's [repr] of these is left
    open. *)
Variable repr_other : json -> string.

Definition getenv (k : string) : json :=
  match environ k with
  | Some v => JStr v
  | None => JNull
  end.

(** [str(v)], also what an f-string puts for [{v}]. *)
Definition py_str (v : json) : string :=
  match v with
  | JStr s => s
  | JNull => "None"
  | JBool true => "True"
  | JBool false => "False"
  | JInt n => NilZero.string_of_int (Z.to_int n)
  | _ => repr_other v
  end.

(** [Agent.run]: a model object is always truthy, [None] is not. *)
Definition Agent_run (self : Agent) : string :=
  match model self with
  | Some _ =>
      "I am " ++ py_str (name self) ++ ", executing a response based on: "
        ++ py_str (user_message self)
  | None => "No model available for this agent"
  end.

(** *** POST /models *)

Definition store_model (st : state) (model_id model_name model_type : json)
    (m : Model) : py (reply * state) :=
  models' <- dict_assign model_id m (models st) ;;
  Ok (Reply 200 (JObj [("id", model_id); ("name", model_name);
                       ("type", model_type); ("status", JStr "created")]),
      set_models st models').

Definition create_model (st : state) (req : request) : reply * state :=
  let params := parse_json_params req in
  try_except st (
    model_type <- item_or params "type" (JStr "openai") ;;
    model_id <- item_or params "id" (JStr "default-model") ;;
    model_name <- item_or params "name" (JStr "Default Model") ;;
    model_config <- item_or params "config" (JObj []) ;;
    lowered <- py_lower model_type ;;
    if String.eqb lowered "openai" then
      id <- item_or model_config "model" (JStr "gpt-4o") ;;
      temp <- item_or model_config "temperature" (JFloat float_0_7) ;;
      maxt <- item_or model_config "maxTokens" JNull ;;
      sysp <- item_or model_config "systemPrompt" JNull ;;
      store_model st model_id model_name model_type
        (mkModel OpenAIChat id model_name (getenv "OPENAI_API_KEY")
           temp maxt sysp)
    else
      lowered' <- py_lower model_type ;;
      if String.eqb lowered' "anthropic" then
        id <- item_or model_config "model"
                (JStr "claude-3-7-sonnet-20250219") ;;
        temp <- item_or model_config "temperature" (JFloat float_0_7) ;;
        maxt <- item_or model_config "maxTokens" JNull ;;
        sysp <- item_or model_config "systemPrompt" JNull ;;
        store_model st model_id model_name model_type
          (mkModel Claude id model_name (getenv "ANTHROPIC_API_KEY")
             temp maxt sysp)
      else
        Ok (Reply 400
              (JObj [("error",
                      JStr ("Unsupported model type: " ++ py_str model_type))]),
            st)).

(** *** POST /models/<model_id>/generate *)

(** The loop that turns the request's messages into [Message] objects. *)
Fixpoint agno_messages (msgs : list json) : py (list Message) :=
  match msgs with
  | [] => Ok []
  | msg :: rest =>
      r <- item_or msg "role" (JStr "user") ;;
      c <- item_or msg "content" (JStr "") ;;
      tail <- agno_messages rest ;;
      Ok (mkMessage r c :: tail)
  end.

Definition generate_response (st : state) (model_id : string) (req : request)
  : reply * state :=
  if negb (is_some (dict_find (JStr model_id) (models st))) then
    (Reply 404 (JObj [("error", JStr ("Model " ++ model_id ++ " not found"))]),
     st)
  else
    let params := parse_json_params req in
    try_except st (
      m <- dict_getitem (JStr model_id) (models st) ;;
      messages <- py_get params "messages" (JArr []) ;;
      msgs <- py_iter messages ;;
      converted <- agno_messages msgs ;;
      let resp := response m converted in
      Ok (Reply 200 (JObj [("content", content (message resp));
                           ("role", role (message resp));
                           ("tool_calls", tool_calls resp)]),
          st)).

(** *** POST /agents *)

(** [model_id and model_id not in models], as a condition. *)
Definition model_missing (st : state) (model_id : json) : py bool :=
  if py_truthy model_id then
    b <- dict_contains model_id (models st) ;; Ok (negb b)
  else Ok false.

(** [models.get(model_id) if model_id else None]. *)
Definition model_for (st : state) (model_id : json) : py (option Model) :=
  if py_truthy model_id then dict_get model_id (models st) else Ok None.

(** The loop that collects the tools an agent asks for. *)
Fixpoint resolve_tools (reg : dict Function) (ids : list json)
  : py (list Function) :=
  match ids with
  | [] => Ok []
  | tool_id :: rest =>
      b <- dict_contains tool_id reg ;;
      found <- (if b then t <- dict_getitem tool_id reg ;; Ok [t] else Ok []) ;;
      tail <- resolve_tools reg rest ;;
      Ok (found ++ tail)%list
  end.

Definition create_agent (st : state) (req : request) : reply * state :=
  let params := parse_json_params req in
  try_except st (
    aid <- py_get params "id" (JStr "default-agent") ;;
    agent_name <- py_get params "name" (JStr "Default Agent") ;;
    model_id <- py_get params "modelId" JNull ;;
    sysp <- py_get params "systemPrompt" (JStr "") ;;
    tools_list <- py_get params "tools" (JArr []) ;;
    missing <- model_missing st model_id ;;
    if missing then
      Ok (Reply 404
            (JObj [("error",
                    JStr ("Model " ++ py_str model_id ++ " not found"))]),
          st)
    else
      m <- model_for st model_id ;;
      ids <- py_iter tools_list ;;
      agent_tools <- resolve_tools (tools st) ids ;;
      let agent :=
        new_Agent agent_name aid m sysp
          (match agent_tools with [] => None | _ => Some agent_tools end) in
      agents' <- dict_assign aid agent (agents st) ;;
      Ok (Reply 200 (JObj [("id", aid); ("name", agent_name);
                           ("status", JStr "created")]),
          set_agents st agents')).

(** *** POST /agents/<agent_id>/run *)

(** The two assignments to the agent object. *)
Definition prepare_run (a : Agent) (msg workspace_id : json) : Agent :=
  let a1 := set_user_message a msg in
  if py_truthy workspace_id
  then set_session_id a1 (JStr (py_str workspace_id))
  else a1.

Definition run_agent (st : state) (aid : string) (req : request)
  : reply * state :=
  if negb (is_some (dict_find (JStr aid) (agents st))) then
    (Reply 404 (JObj [("error", JStr ("Agent " ++ aid ++ " not found"))]), st)
  else
    let params := parse_json_params req in
    try_except st (
      agent <- dict_getitem (JStr aid) (agents st) ;;
      msg <- py_get params "message" (JStr "") ;;
      workspace_id <- py_get params "workspaceId" JNull ;;
      let agent' := prepare_run agent msg workspace_id in
      let out := Agent_run agent' in
      Ok (Reply 200 (JObj [("content", JStr out); ("agentId", JStr aid);
                           ("workspaceId", workspace_id)]),
          set_agents st (dict_set (JStr aid) agent' (agents st)))).

(** *** POST /tools *)

Definition create_tool (st : state) (req : request) : reply * state :=
  let params := parse_json_params req in
  try_except st (
    tool_id <- py_get params "id" (JStr "default-tool") ;;
    tool_name <- py_get params "name" (JStr "Default Tool") ;;
    tool_description <- py_get params "description" (JStr "") ;;
    tool_parameters <- py_get params "parameters" (JObj []) ;;
    let tool := new_Function tool_name tool_description tool_parameters in
    tools' <- dict_assign tool_id tool (tools st) ;;
    Ok (Reply 200 (JObj [("id", tool_id); ("name", tool_name);
                         ("status", JStr "created")]),
        set_tools st tools')).

(** *** POST /memory *)

Definition create_memory_manager (st : state) (req : request)
  : reply * state :=
  let params := parse_json_params req in
  try_except st (
    memory_id <- py_get params "id" (JStr "default-memory") ;;
    model_id <- py_get params "modelId" JNull ;;
    missing <- model_missing st model_id ;;
    if missing then
      Ok (Reply 404
            (JObj [("error",
                    JStr ("Model " ++ py_str model_id ++ " not found"))]),
          st)
    else
      m <- model_for st model_id ;;
      lim <- py_get params "limit" (JInt 100) ;;
      let memory_manager := new_MemoryManager m lim in
      mms' <- dict_assign memory_id memory_manager (memory_managers st) ;;
      Ok (Reply 200 (JObj [("id", memory_id); ("status", JStr "created")]),
          set_memory_managers st mms')).

(** *** POST /memory/<memory_id>/add *)

Definition add_memory (st : state) (memory_id : string) (req : request)
  : reply * state :=
  if negb (is_some (dict_find (JStr memory_id) (memory_managers st))) then
    (Reply 404
       (JObj [("error",
               JStr ("Memory manager " ++ memory_id ++ " not found"))]),
     st)
  else
    let params := parse_json_params req in
    try_except st (
      memory_manager <- dict_getitem (JStr memory_id) (memory_managers st) ;;
      memory_content <- py_get params "content" (JStr "") ;;
      r <- MemoryManager_add_memory memory_manager memory_content ;;
      Ok (Reply 200 (JObj [("result", JBool (fst r));
                           ("status", JStr "success")]),
          set_memory_managers st
            (dict_set (JStr memory_id) (snd r) (memory_managers st)))).

(** *** GET /status *)

Definition get_status (st : state) : reply * state :=
  (Reply 200 (JObj [("status", JStr "running");
                    ("models", JArr (dict_keys (models st)));
                    ("agents", JArr (dict_keys (agents st)));
                    ("memory_managers", JArr (dict_keys (memory_managers st)));
                    ("tools", JArr (dict_keys (tools st)))]),
   st).

End Handlers.

(** [d.get(k, default)] on the field list of a JSON object. *)
Definition field_or (fields : list (string * json)) (k : string) (d : json)
  : json :=
  match lookup k fields with
  | Some v => v
  | None => d
  end.

(** The id and the name a create-model request with these fields asks for. *)
Definition model_id_of (fields : list (string * json)) : json :=
  field_or fields "id" (JStr "default-model").

Definition model_name_of (fields : list (string * json)) : json :=
  field_or fields "name" (JStr "Default Model").

(** The id a create-agent request with these fields asks for. *)
Definition agent_id_of (fields : list (string * json)) : json :=
  field_or fields "id" (JStr "default-agent").

(** The registered tools among [ids], in the order of [ids]. *)
Definition existing_tools (reg : dict Function) (ids : list json)
  : list Function :=
  flat_map (fun i => match dict_find i reg with
                     | Some t => [t]
                     | None => []
                     end) ids.

(** The last [c] elements of a list, in order. *)
Definition recent {A : Type} (c : nat) (l : list A) : list A :=
  skipn (List.length l - c) l.

(** The memory-add requests that carry the contents [cs], served in order. *)
Definition add_all (st : state) (memory_id : string) (cs : list json) : state :=
  fold_left
    (fun s c => snd (add_memory s memory_id (Body (JObj [("content", c)]))))
    cs st.

(** The four create endpoints, by the registry they write to. *)
Inductive registry : Type :=
| Models
| Agents
| Tools
| MemoryManagers.

(** The same two variables as in the handlers: the entries below are the
    handlers themselves. *)
Section Create.

Variable environ : string -> option string.
Variable repr_other : json -> string.

Definition create (r : registry) (st : state) (req : request) : reply * state :=
  match r with
  | Models => create_model environ repr_other st req
  | Agents => create_agent repr_other st req
  | Tools => create_tool st req
  | MemoryManagers => create_memory_manager repr_other st req
  end.

End Create.

(** The id a create request asks for, as the handler reads it. *)
Definition posted_id (r : registry) (req : request) : py json :=
  let params := parse_json_params req in
  match r with
  | Models => item_or params "id" (JStr "default-model")
  | Agents => py_get params "id" (JStr "default-agent")
  | Tools => py_get params "id" (JStr "default-tool")
  | MemoryManagers => py_get params "id" (JStr "default-memory")
  end.

(** A process without the two API keys, and a stand-in for the [repr] of
    floats, lists and dicts, for running the handlers on examples. *)
Definition no_keys (k : string) : option string := None.

Definition repr_blank (v : json) : string := "".

(** The value under a key of the JSON object a handler answers with. *)
Definition reply_field (k : string) (r : reply) : option json :=
  match r with
  | Reply _ (JObj fields) => lookup k fields
  | _ => None
  end.

(** The routes of the application, with what each is called with. *)
Inductive call : Type :=
| PostModels (req : request)
| PostGenerate (mid : string) (req : request)
| PostAgents (req : request)
| PostRun (aid : string) (req : request)
| PostTools (req : request)
| PostMemory (req : request)
| PostMemoryAdd (mid : string) (req : request)
| GetStatus.

Section Routes.

Variable environ : string -> option string.
Variable repr_other : json -> string.

(** The route table: the handler each call is dispatched to. *)
Definition serve (st : state) (c : call) : reply * state :=
  match c with
  | PostModels req => create_model environ repr_other st req
  | PostGenerate mid req => generate_response st mid req
  | PostAgents req => create_agent repr_other st req
  | PostRun aid req => run_agent repr_other st aid req
  | PostTools req => create_tool st req
  | PostMemory req => create_memory_manager repr_other st req
  | PostMemoryAdd mid req => add_memory st mid req
  | GetStatus => get_status st
  end.

(** The registries after a sequence of calls, served one after another. *)
Definition run_calls (st : state) (cs : list call) : state :=
  fold_left (fun s c => snd (serve s c)) cs st.

End Routes.

(** The memory-add requests [reqs], served in order. *)
Definition add_requests (st : state) (memory_id : string)
    (reqs : list request) : state :=
  fold_left (fun s req => snd (add_memory s memory_id req)) reqs st.

(** The ids of a registry, in the order [get_status] lists them. *)
Definition registry_keys (r : registry) (st : state) : list json :=
  match r with
  | Models => dict_keys (models st)
  | Agents => dict_keys (agents st)
  | Tools => dict_keys (tools st)
  | MemoryManagers => dict_keys (memory_managers st)
  end.

(** What a registry can hold under an id. *)
Inductive entity : Type :=
| AModel (m : Model)
| AnAgent (a : Agent)
| ATool (f : Function)
| AMemoryManager (mm : MemoryManager).

Definition registry_entry (r : registry) (st : state) (k : json)
  : option entity :=
  match r with
  | Models => option_map AModel (dict_find k (models st))
  | Agents => option_map AnAgent (dict_find k (agents st))
  | Tools => option_map ATool (dict_find k (tools st))
  | MemoryManagers =>
      option_map AMemoryManager (dict_find k (memory_managers st))
  end.

Section Constructed.

Variable environ : string -> option string.

(** What a create handler has built when it reaches the assignment to its
    registry: the value of [model], [agent], [tool] or [memory_manager] at
    that statement, from the same expressions as in the handler; nothing
    when the handler returns before it gets there (400, 404). *)
Definition constructed (r : registry) (st : state) (params : json)
  : py (option entity) :=
  match r with
  | Models =>
      model_type <- item_or params "type" (JStr "openai") ;;
      _ <- item_or params "id" (JStr "default-model") ;;
      model_name <- item_or params "name" (JStr "Default Model") ;;
      model_config <- item_or params "config" (JObj []) ;;
      lowered <- py_lower model_type ;;
      if String.eqb lowered "openai" then
        id <- item_or model_config "model" (JStr "gpt-4o") ;;
        temp <- item_or model_config "temperature" (JFloat float_0_7) ;;
        maxt <- item_or model_config "maxTokens" JNull ;;
        sysp <- item_or model_config "systemPrompt" JNull ;;
        Ok (Some (AModel (mkModel OpenAIChat id model_name
                            (getenv environ "OPENAI_API_KEY")
                            temp maxt sysp)))
      else if String.eqb lowered "anthropic" then
        id <- item_or model_config "model"
                (JStr "claude-3-7-sonnet-20250219") ;;
        temp <- item_or model_config "temperature" (JFloat float_0_7) ;;
        maxt <- item_or model_config "maxTokens" JNull ;;
        sysp <- item_or model_config "systemPrompt" JNull ;;
        Ok (Some (AModel (mkModel Claude id model_name
                            (getenv environ "ANTHROPIC_API_KEY")
                            temp maxt sysp)))
      else Ok None
  | Agents =>
      aid <- py_get params "id" (JStr "default-agent") ;;
      agent_name <- py_get params "name" (JStr "Default Agent") ;;
      model_id <- py_get params "modelId" JNull ;;
      sysp <- py_get params "systemPrompt" (JStr "") ;;
      tools_list <- py_get params "tools" (JArr []) ;;
      missing <- model_missing st model_id ;;
      if missing then Ok None
      else
        m <- model_for st model_id ;;
        ids <- py_iter tools_list ;;
        agent_tools <- resolve_tools (tools st) ids ;;
        Ok (Some (AnAgent
                    (new_Agent agent_name aid m sysp
                       (match agent_tools with
                        | [] => None
                        | _ => Some agent_tools
                        end))))
  | Tools =>
      _ <- py_get params "id" (JStr "default-tool") ;;
      tool_name <- py_get params "name" (JStr "Default Tool") ;;
      tool_description <- py_get params "description" (JStr "") ;;
      tool_parameters <- py_get params "parameters" (JObj []) ;;
      Ok (Some (ATool (new_Function tool_name tool_description
                         tool_parameters)))
  | MemoryManagers =>
      _ <- py_get params "id" (JStr "default-memory") ;;
      model_id <- py_get params "modelId" JNull ;;
      missing <- model_missing st model_id ;;
      if missing then Ok None
      else
        m <- model_for st model_id ;;
        lim <- py_get params "limit" (JInt 100) ;;
        Ok (Some (AMemoryManager (new_MemoryManager m lim)))
  end.

End Constructed.

Definition registered (r : registry) (st : state) (k : json) : bool :=
  is_some (registry_entry r st k).

(** The id each create handler falls back to. *)
Definition default_id (r : registry) : json :=
  match r with
  | Models => JStr "default-model"
  | Agents => JStr "default-agent"
  | Tools => JStr "default-tool"
  | MemoryManagers => JStr "default-memory"
  end.

(** What one call does to the registries: nothing, or one assignment under
    a hashable key in one of them. *)
Inductive one_write (st : state) : state -> Prop :=
| no_write : one_write st st
| write_model k v :
    hashable k = true ->
    one_write st (set_models st (dict_set k v (models st)))
| write_agent k v :
    hashable k = true ->
    one_write st (set_agents st (dict_set k v (agents st)))
| write_tool k v :
    hashable k = true ->
    one_write st (set_tools st (dict_set k v (tools st)))
| write_memory_manager k v :
    hashable k = true ->
    one_write st (set_memory_managers st (dict_set k v (memory_managers st))).

(** Keys that are hashable and pairwise different as Python compares them. *)
Fixpoint distinct_keys (ks : list json) : Prop :=
  match ks with
  | [] => True
  | k :: rest =>
      hashable k = true /\
      Forall (fun k' => py_eqb k k' = false) rest /\
      distinct_keys rest
  end.

(** A value on which neither [in] nor iteration is defined. *)
Definition is_scalar (v : json) : Prop :=
  match v with
  | JNull | JBool _ | JInt _ | JFloat _ => True
  | _ => False
  end.

Definition is_object (v : json) : Prop :=
  match v with
  | JObj _ => True
  | _ => False
  end.

(* ===================================================================== *)
(** ** Facts about the Python operators and the registries *)
(* ===================================================================== *)

Lemma item_or_object fields k d :
  item_or (JObj fields) k d = Ok (field_or fields k d).
Proof.
  unfold item_or, field_or; simpl.
  destruct (lookup k fields); reflexivity.
Qed.

Lemma py_get_object fields k d :
  py_get (JObj fields) k d = Ok (field_or fields k d).
Proof.
  unfold field_or; simpl. destruct (lookup k fields); reflexivity.
Qed.

Lemma Qeq_bool_refl q : Qeq_bool q q = true.
Proof. apply Qeq_bool_iff. reflexivity. Qed.

Lemma py_eqb_refl k : hashable k = true -> py_eqb k k = true.
Proof.
  destruct k; simpl; intros H; try discriminate H;
    auto using Qeq_bool_refl, String.eqb_refl.
Qed.

Lemma py_eqb_str_inv k s : py_eqb k (JStr s) = true -> k = JStr s.
Proof.
  destruct k; simpl; try discriminate.
  intros H. apply String.eqb_eq in H. now subst.
Qed.

Section Dict.

Context {V : Type}.

Lemma dict_find_set_same (k : json) (v : V) (d : dict V) :
  hashable k = true -> dict_find k (dict_set k v d) = Some v.
Proof.
  intros Hk. induction d as [|[k' v'] rest IH]; simpl.
  - now rewrite py_eqb_refl.
  - destruct (py_eqb k' k) eqn:E; simpl; rewrite E; auto.
Qed.

Lemma dict_set_set (k : json) (v1 v2 : V) (d : dict V) :
  hashable k = true -> dict_set k v2 (dict_set k v1 d) = dict_set k v2 d.
Proof.
  intros Hk. induction d as [|[k' v'] rest IH]; simpl.
  - now rewrite py_eqb_refl.
  - destruct (py_eqb k' k) eqn:E; simpl; rewrite E; congruence.
Qed.

Lemma dict_keys_set_present (k : json) (v : V) (d : dict V) :
  is_some (dict_find k d) = true -> dict_keys (dict_set k v d) = dict_keys d.
Proof.
  unfold dict_keys. induction d as [|[k' v'] rest IH]; simpl.
  - discriminate.
  - destruct (py_eqb k' k); simpl; intros H; [reflexivity|].
    now rewrite IH.
Qed.

(** Assigning under a string key leaves every other key's entry alone. *)
Lemma dict_find_set_str_other (s : string) (k : json) (v : V) (d : dict V) :
  py_eqb (JStr s) k = false ->
  dict_find k (dict_set (JStr s) v d) = dict_find k d.
Proof.
  intros Hk. induction d as [|[k' v'] rest IH]; cbn [dict_find dict_set].
  - now rewrite Hk.
  - destruct (py_eqb k' (JStr s)) eqn:E; cbn [dict_find dict_set].
    + apply py_eqb_str_inv in E. subst k'. now rewrite Hk.
    + now rewrite IH.
Qed.

End Dict.

(* ===================================================================== *)
(** ** The bounded memory store *)
(* ===================================================================== *)

Lemma Qle_bool_inject_Z a b : Qle_bool (inject_Z a) (inject_Z b) = (a <=? b)%Z.
Proof. unfold Qle_bool; simpl. now rewrite !Z.mul_1_r. Qed.

Lemma recent_all {A : Type} (c : nat) (l : list A) :
  (List.length l <= c)%nat -> recent c l = l.
Proof.
  intros H. unfold recent.
  now replace (List.length l - c)%nat with 0%nat by lia.
Qed.

Lemma recent_length {A : Type} (c : nat) (l : list A) :
  (List.length (recent c l) <= c)%nat.
Proof. unfold recent. rewrite length_skipn. lia. Qed.

(** Dropping the oldest of a full store and appending keeps the last [c]. *)
Lemma recent_full_snoc {A : Type} (c : nat) (x y : A) (l : list A) :
  List.length (x :: l) = c -> recent c ((x :: l) ++ [y]) = (l ++ [y])%list.
Proof.
  intros H. unfold recent. rewrite length_app, H; simpl.
  now replace (c + 1 - c)%nat with 1%nat by lia.
Qed.

(** The last [c] of a history only depend on its own last [c]. *)
Lemma recent_recent_app {A : Type} (c : nat) (l l' : list A) :
  recent c (recent c l ++ l') = recent c (l ++ l').
Proof.
  destruct (Nat.le_gt_cases (List.length l) c) as [Hle|Hgt].
  - now rewrite (recent_all c l).
  - unfold recent at 1 3.
    rewrite !length_app. unfold recent. rewrite length_skipn.
    replace (List.length l + List.length l' - c)%nat
      with ((List.length l - c) + List.length l')%nat by lia.
    replace (List.length l - (List.length l - c) + List.length l' - c)%nat
      with (List.length l')%nat by lia.
    rewrite Nat.add_comm, <- skipn_skipn.
    rewrite (skipn_app (List.length l - c) l l').
    replace (List.length l - c - List.length l)%nat with 0%nat by lia.
    reflexivity.
Qed.

(** One [add_memory] on a manager with an integer limit of at least one
    whose store is within the limit. *)
Lemma MemoryManager_add_memory_int (self : MemoryManager) (c : Z) (x : json) :
  limit self = JInt c -> 1 <= c ->
  Z.of_nat (List.length (memories self)) <= c ->
  MemoryManager_add_memory self x =
    Ok (true,
        mkMemoryManager (mm_model self) (JInt c)
          (recent (Z.to_nat c) (memories self ++ [mkMemory x]))).
Proof.
  intros Hl Hc Hlen. unfold MemoryManager_add_memory, py_int_ge.
  rewrite Hl; cbn [num_of bind]. rewrite Qle_bool_inject_Z.
  destruct (c <=? Z.of_nat (List.length (memories self))) eqn:E.
  - apply Z.leb_le in E.
    destruct (memories self) as [|m rest] eqn:Em; [simpl in *; lia|].
    cbn [pop0 bind]. rewrite recent_full_snoc; [reflexivity|]. lia.
  - apply Z.leb_gt in E. cbn [bind]. rewrite recent_all; [reflexivity|].
    rewrite length_app; simpl. lia.
Qed.

(** The handler, on a registered manager of that kind. *)
Lemma add_memory_int (st : state) (mid : string) (mm : MemoryManager)
    (c : Z) (x : json) :
  dict_find (JStr mid) (memory_managers st) = Some mm ->
  limit mm = JInt c -> 1 <= c ->
  Z.of_nat (List.length (memories mm)) <= c ->
  add_memory st mid (Body (JObj [("content", x)])) =
    (Reply 200 (JObj [("result", JBool true); ("status", JStr "success")]),
     set_memory_managers st
       (dict_set (JStr mid)
          (mkMemoryManager (mm_model mm) (JInt c)
             (recent (Z.to_nat c) (memories mm ++ [mkMemory x])))
          (memory_managers st))).
Proof.
  intros Hf Hl Hc Hlen. unfold add_memory, dict_getitem.
  rewrite Hf. cbn -[MemoryManager_add_memory recent].
  now rewrite (MemoryManager_add_memory_int mm c x Hl Hc Hlen).
Qed.

Lemma add_all_int (mid : string) (c : Z) (cs : list json) :
  1 <= c ->
  forall (st : state) (mm : MemoryManager),
    dict_find (JStr mid) (memory_managers st) = Some mm ->
    limit mm = JInt c ->
    Z.of_nat (List.length (memories mm)) <= c ->
    exists mm',
      dict_find (JStr mid) (memory_managers (add_all st mid cs)) = Some mm' /\
      limit mm' = JInt c /\
      mm_model mm' = mm_model mm /\
      memories mm' = recent (Z.to_nat c) (memories mm ++ map mkMemory cs).
Proof.
  intros Hc. induction cs as [|x cs IH]; intros st mm Hf Hl Hlen.
  - exists mm. simpl. rewrite app_nil_r, recent_all by lia. auto.
  - unfold add_all; cbn [fold_left].
    rewrite (add_memory_int st mid mm c x Hf Hl Hc Hlen); cbn [snd].
    set (mm1 := mkMemoryManager _ _ _).
    set (st1 := set_memory_managers _ _).
    destruct (IH st1 mm1) as (mm' & Hf' & Hl' & Hm' & Hmem').
    + subst st1; simpl. now apply dict_find_set_same.
    + reflexivity.
    + subst mm1; cbn [memories].
      pose proof (recent_length (Z.to_nat c) (memories mm ++ [mkMemory x])).
      lia.
    + exists mm'. repeat split; auto.
      rewrite Hmem'. subst mm1; cbn [memories].
      rewrite recent_recent_app, <- app_assoc. reflexivity.
Qed.

Lemma recent_map {A B : Type} (f : A -> B) (c : nat) (l : list A) :
  map f (recent c l) = recent c (map f l).
Proof. unfold recent. now rewrite skipn_map, length_map. Qed.

Section Memory.

Variable repr_other : json -> string.

(** C1. A memory manager created with an integer capacity [c >= 1] holds,
    after any sequence of addMemory calls, at most [c] entries: exactly the
    last [c] contents added, in the order they were added; and an insertion
    into a full store drops the single oldest entry and appends the new
    one. *)
Theorem memory_fifo_bounded (st : state) (mid : string) (c : Z)
    (cs : list json) :
  1 <= c ->
  let created :=
    snd (create_memory_manager repr_other st
           (Body (JObj [("id", JStr mid); ("limit", JInt c)]))) in
  exists mm,
    dict_find (JStr mid) (memory_managers (add_all created mid cs)) = Some mm /\
    limit mm = JInt c /\
    map mem_content (memories mm) = recent (Z.to_nat c) cs /\
    Z.of_nat (List.length (memories mm)) <= c /\
    forall x,
      Z.of_nat (List.length (memories mm)) = c ->
      exists mm',
        dict_find (JStr mid)
          (memory_managers (add_all created mid (cs ++ [x]))) = Some mm' /\
        map mem_content (memories mm') =
          (tl (map mem_content (memories mm)) ++ [x])%list.
Proof.
  intros Hc created.
  assert (Hcreated :
    created = set_memory_managers st
                (dict_set (JStr mid) (new_MemoryManager None (JInt c))
                   (memory_managers st))) by reflexivity.
  destruct (add_all_int mid c cs Hc created (new_MemoryManager None (JInt c)))
    as (mm & Hf & Hl & _ & Hmem).
  { rewrite Hcreated; simpl. now apply dict_find_set_same. }
  { reflexivity. }
  { simpl; lia. }
  cbn [new_MemoryManager memories app] in Hmem.
  assert (Hlen : Z.of_nat (List.length (memories mm)) <= c).
  { rewrite Hmem.
    pose proof (recent_length (Z.to_nat c) (map mkMemory cs)). lia. }
  exists mm. repeat split; auto.
  - rewrite Hmem, recent_map, map_map; simpl. now rewrite map_id.
  - intros x Hfull.
    unfold add_all. rewrite fold_left_app; cbn [fold_left].
    fold (add_all created mid cs).
    rewrite (add_memory_int _ mid mm c x Hf Hl Hc Hlen); cbn [snd].
    eexists. split.
    + simpl. now apply dict_find_set_same.
    + cbn [memories].
      destruct (memories mm) as [|m rest]; [simpl in Hfull; lia|].
      rewrite recent_full_snoc by lia.
      rewrite map_app. reflexivity.
Qed.

End Memory.

(* ===================================================================== *)
(** ** The model registry *)
(* ===================================================================== *)

Lemma agno_messages_objects (msgs : list json) :
  Forall is_object msgs -> exists l, agno_messages msgs = Ok l.
Proof.
  induction 1 as [|msg rest Hobj _ IH].
  - now exists [].
  - destruct msg; try contradiction. destruct IH as (l & Hl).
    cbn [agno_messages]. rewrite !item_or_object; cbn [bind]. rewrite Hl.
    eexists; reflexivity.
Qed.

Section ModelRegistry.

Variable environ : string -> option string.
Variable repr_other : json -> string.

(** The handler on a JSON object, up to the choice of the class. *)
Lemma create_model_object (st : state) (req : request)
    (fields : list (string * json)) (t : string) :
  parse_json_params req = JObj fields ->
  field_or fields "type" (JStr "openai") = JStr t ->
  create_model environ repr_other st req =
    try_except st
      (let cfg := field_or fields "config" (JObj []) in
       if String.eqb (lower t) "openai" then
         id <- item_or cfg "model" (JStr "gpt-4o") ;;
         temp <- item_or cfg "temperature" (JFloat float_0_7) ;;
         maxt <- item_or cfg "maxTokens" JNull ;;
         sysp <- item_or cfg "systemPrompt" JNull ;;
         store_model st (model_id_of fields) (model_name_of fields) (JStr t)
           (mkModel OpenAIChat id (model_name_of fields)
              (getenv environ "OPENAI_API_KEY") temp maxt sysp)
       else if String.eqb (lower t) "anthropic" then
         id <- item_or cfg "model" (JStr "claude-3-7-sonnet-20250219") ;;
         temp <- item_or cfg "temperature" (JFloat float_0_7) ;;
         maxt <- item_or cfg "maxTokens" JNull ;;
         sysp <- item_or cfg "systemPrompt" JNull ;;
         store_model st (model_id_of fields) (model_name_of fields) (JStr t)
           (mkModel Claude id (model_name_of fields)
              (getenv environ "ANTHROPIC_API_KEY") temp maxt sysp)
       else
         Ok (Reply 400
               (JObj [("error", JStr ("Unsupported model type: " ++ t))]),
             st)).
Proof.
  intros Hp Ht. unfold create_model. rewrite Hp.
  rewrite !item_or_object; cbn [bind]. rewrite Ht; cbn [py_lower bind py_str].
  destruct (String.eqb (lower t) "openai"); reflexivity.
Qed.

(** C8. [generate] on a model id that is not registered answers 404 with
    a JSON error body and leaves the four registries as they were. *)
Theorem generate_unknown_model (st : state) (mid : string) (req : request) :
  dict_find (JStr mid) (models st) = None ->
  generate_response st mid req =
    (Reply 404 (JObj [("error", JStr ("Model " ++ mid ++ " not found"))]), st).
Proof.
  intros H. unfold generate_response. now rewrite H.
Qed.

(** C2, with the third key as the handler spells it.  For a registered
    model id and a request whose body is a JSON object with [messages]
    absent or a list of JSON objects, [generate] answers 200 with content,
    role and [tool_calls]: the content is the canned string of the model's
    class, whatever the messages are, the role is 'assistant', and
    [tool_calls] is null.  Nothing is changed. *)
Theorem generate_canned (st : state) (mid : string) (req : request)
    (fields : list (string * json)) (msgs : list json) (m : Model) :
  dict_find (JStr mid) (models st) = Some m ->
  parse_json_params req = JObj fields ->
  field_or fields "messages" (JArr []) = JArr msgs ->
  Forall is_object msgs ->
  generate_response st mid req =
    (Reply 200
       (JObj [("content",
               JStr match cls m with
                    | OpenAIChat =>
                        "This is a response from the simulated OpenAI model."
                    | Claude =>
                        "This is a response from the simulated Claude model."
                    end);
              ("role", JStr "assistant");
              ("tool_calls", JNull)]),
     st).
Proof.
  intros Hf Hp Hm Hobj. unfold generate_response, dict_getitem.
  rewrite Hf, Hp, py_get_object, Hm.
  cbn [negb is_some py_hash hashable bind py_iter].
  destruct (agno_messages_objects msgs Hobj) as (l & Hl). rewrite Hl.
  cbn [bind try_except]. unfold response. destruct (cls m); reflexivity.
Qed.

(** C3, on the lowered type.  A create-model request whose type is a
    string that lowers to neither 'openai' nor 'anthropic' is answered 400
    with 'Unsupported model type: ' followed by the type as sent, and no
    registry is changed. *)
Theorem create_model_unsupported (st : state) (req : request)
    (fields : list (string * json)) (t : string) :
  parse_json_params req = JObj fields ->
  lookup "type" fields = Some (JStr t) ->
  lower t <> "openai" ->
  lower t <> "anthropic" ->
  create_model environ repr_other st req =
    (Reply 400 (JObj [("error", JStr ("Unsupported model type: " ++ t))]), st).
Proof.
  intros Hp Ht Ho Ha.
  rewrite (create_model_object st req fields t Hp)
    by (unfold field_or; now rewrite Ht).
  apply String.eqb_neq in Ho, Ha. now rewrite Ho, Ha.
Qed.

(** C9. A create-model request with type 'openai', or without a type, and
    with no config (or an empty one) registers an [OpenAIChat] whose model
    field is 'gpt-4o' and whose temperature is 0.7, with no max_tokens and
    no system prompt, and answers id, name, type and status 'created'. *)
Theorem create_model_openai_defaults (st : state) (req : request)
    (fields : list (string * json)) :
  parse_json_params req = JObj fields ->
  field_or fields "type" (JStr "openai") = JStr "openai" ->
  field_or fields "config" (JObj []) = JObj [] ->
  hashable (model_id_of fields) = true ->
  let m := mkModel OpenAIChat (JStr "gpt-4o") (model_name_of fields)
             (getenv environ "OPENAI_API_KEY") (JFloat float_0_7) JNull JNull in
  create_model environ repr_other st req =
    (Reply 200 (JObj [("id", model_id_of fields);
                      ("name", model_name_of fields);
                      ("type", JStr "openai"); ("status", JStr "created")]),
     set_models st (dict_set (model_id_of fields) m (models st))) /\
  dict_find (model_id_of fields)
    (models (snd (create_model environ repr_other st req))) = Some m.
Proof.
  intros Hp Ht Hc Hh m.
  assert (E : create_model environ repr_other st req =
    (Reply 200 (JObj [("id", model_id_of fields);
                      ("name", model_name_of fields);
                      ("type", JStr "openai"); ("status", JStr "created")]),
     set_models st (dict_set (model_id_of fields) m (models st)))).
  { rewrite (create_model_object st req fields "openai" Hp Ht), Hc.
    cbn. unfold store_model, dict_assign, py_hash. now rewrite Hh. }
  split; [exact E|]. rewrite E; simpl. now apply dict_find_set_same.
Qed.

(** C10. The type of a create-model request is matched without regard to
    case: a type string that lowers to 'openai' registers an [OpenAIChat],
    one that lowers to 'anthropic' a [Claude], and the answer carries the
    type as it was sent. *)
Theorem create_model_case_insensitive (st : state) (req : request)
    (fields : list (string * json)) (t : string) :
  parse_json_params req = JObj fields ->
  lookup "type" fields = Some (JStr t) ->
  lower t = "openai" \/ lower t = "anthropic" ->
  is_object (field_or fields "config" (JObj [])) ->
  hashable (model_id_of fields) = true ->
  exists m,
    create_model environ repr_other st req =
      (Reply 200 (JObj [("id", model_id_of fields);
                        ("name", model_name_of fields);
                        ("type", JStr t); ("status", JStr "created")]),
       set_models st (dict_set (model_id_of fields) m (models st))) /\
    cls m = (if String.eqb (lower t) "openai" then OpenAIChat else Claude) /\
    dict_find (model_id_of fields)
      (models (snd (create_model environ repr_other st req))) = Some m.
Proof.
  intros Hp Ht Hl Hc Hh.
  rewrite (create_model_object st req fields t Hp)
    by (unfold field_or; now rewrite Ht).
  destruct (field_or fields "config" (JObj [])) as [| | | | | |cfg];
    try contradiction.
  cbv zeta. rewrite !item_or_object.
  unfold store_model, dict_assign, py_hash. rewrite Hh.
  destruct Hl as [Hl|Hl]; rewrite Hl;
    cbn [String.eqb Ascii.eqb Bool.eqb bind try_except];
    eexists; (split; [reflexivity|split; [reflexivity|]]);
    simpl; now apply dict_find_set_same.
Qed.

End ModelRegistry.

(* ===================================================================== *)
(** ** The agent registry *)
(* ===================================================================== *)

Lemma resolve_tools_hashable (reg : dict Function) (ids : list json) :
  Forall (fun i => hashable i = true) ids ->
  resolve_tools reg ids = Ok (existing_tools reg ids).
Proof.
  induction 1 as [|i rest Hi _ IH]; [reflexivity|].
  cbn [resolve_tools existing_tools flat_map].
  unfold dict_contains, dict_getitem, py_hash. rewrite Hi, IH; cbn [bind].
  destruct (dict_find i reg); reflexivity.
Qed.

Lemma model_for_registered (st : state) (v : json) :
  model_missing st v = Ok false -> exists m, model_for st v = Ok m.
Proof.
  unfold model_missing, model_for, dict_contains, dict_get, py_hash.
  destruct (py_truthy v); [|now exists None].
  destruct (hashable v); [|discriminate].
  eexists; reflexivity.
Qed.

Section AgentRegistry.

Variable repr_other : json -> string.

(** C5. A create-agent request whose tool ids name registered and
    unregistered tools alike succeeds, and the agent it registers holds
    exactly the registered ones, in the order of the request; the others are
    dropped without an error. *)
Theorem create_agent_drops_missing_tools (st : state) (req : request)
    (fields : list (string * json)) (ids : list json) :
  parse_json_params req = JObj fields ->
  field_or fields "tools" (JArr []) = JArr ids ->
  Forall (fun i => hashable i = true) ids ->
  model_missing st (field_or fields "modelId" JNull) = Ok false ->
  hashable (agent_id_of fields) = true ->
  exists a,
    create_agent repr_other st req =
      (Reply 200 (JObj [("id", agent_id_of fields);
                        ("name", field_or fields "name" (JStr "Default Agent"));
                        ("status", JStr "created")]),
       set_agents st (dict_set (agent_id_of fields) a (agents st))) /\
    dict_find (agent_id_of fields)
      (agents (snd (create_agent repr_other st req))) = Some a /\
    a_tools a = existing_tools (tools st) ids.
Proof.
  intros Hp Ht Hids Hm Hh.
  destruct (model_for_registered st _ Hm) as (m & Hmf).
  unfold create_agent. rewrite Hp, !py_get_object; cbn [bind].
  rewrite Hm; cbn [bind]. rewrite Hmf, Ht; cbn [bind py_iter].
  rewrite (resolve_tools_hashable _ _ Hids); cbn [bind].
  unfold dict_assign, py_hash. fold (agent_id_of fields). rewrite Hh.
  cbn [bind try_except snd agents set_agents].
  eexists. split; [reflexivity|]. split.
  - now apply dict_find_set_same.
  - cbn [new_Agent a_tools]. now destruct (existing_tools (tools st) ids).
Qed.

(** C6. Running a registered agent answers 200 with content, agentId and
    workspaceId; the content is 'I am <name>, executing a response based
    on: <message>' when the agent holds a model and 'No model available for
    this agent' when it holds none. *)
Theorem run_agent_content (st : state) (aid : string) (req : request)
    (fields : list (string * json)) (a : Agent) :
  dict_find (JStr aid) (agents st) = Some a ->
  parse_json_params req = JObj fields ->
  fst (run_agent repr_other st aid req) =
    Reply 200
      (JObj [("content",
              JStr match model a with
                   | Some _ =>
                       "I am " ++ py_str repr_other (name a)
                         ++ ", executing a response based on: "
                         ++ py_str repr_other
                              (field_or fields "message" (JStr ""))
                   | None => "No model available for this agent"
                   end);
             ("agentId", JStr aid);
             ("workspaceId", field_or fields "workspaceId" JNull)]).
Proof.
  intros Hf Hp. unfold run_agent, dict_getitem.
  rewrite Hf, Hp, !py_get_object.
  cbn [negb is_some py_hash hashable bind try_except fst].
  unfold Agent_run, prepare_run.
  destruct (py_truthy (field_or fields "workspaceId" JNull));
    cbn [model name user_message set_session_id set_user_message];
    destruct (model a); reflexivity.
Qed.

(** What [run_agent] does to the registries on an object body.  It sets the
    agent's user message to the request's message; the handler's test
    [if workspace_id:] lets it set the session id, to the workspace id as a
    string, only for a truthy workspace id.  The agent's name, id, model,
    system message and tools, every other agent, the order of the agent
    registry and the other three registries stay as they were. *)
Theorem run_agent_frame (st : state) (aid : string) (req : request)
    (fields : list (string * json)) (a : Agent) :
  dict_find (JStr aid) (agents st) = Some a ->
  parse_json_params req = JObj fields ->
  let w := field_or fields "workspaceId" JNull in
  let a' :=
    mkAgent (name a) (agent_id a) (model a) (system_message a) (a_tools a)
      (field_or fields "message" (JStr ""))
      (if py_truthy w then JStr (py_str repr_other w) else session_id a) in
  let st' := snd (run_agent repr_other st aid req) in
  st' = set_agents st (dict_set (JStr aid) a' (agents st)) /\
  dict_find (JStr aid) (agents st') = Some a' /\
  (forall k, py_eqb (JStr aid) k = false ->
             dict_find k (agents st') = dict_find k (agents st)) /\
  dict_keys (agents st') = dict_keys (agents st) /\
  models st' = models st /\
  tools st' = tools st /\
  memory_managers st' = memory_managers st.
Proof.
  intros Hf Hp w a' st'.
  assert (E : st' = set_agents st (dict_set (JStr aid) a' (agents st))).
  { subst st' a' w. unfold run_agent, dict_getitem.
    rewrite Hf, Hp, !py_get_object.
    cbn [negb is_some py_hash hashable bind try_except snd].
    unfold prepare_run.
    destruct (py_truthy (field_or fields "workspaceId" JNull)); reflexivity. }
  rewrite E. cbn [agents models tools memory_managers set_agents].
  repeat split.
  - now apply dict_find_set_same.
  - intros k Hk. now apply dict_find_set_str_other.
  - apply dict_keys_set_present. now rewrite Hf.
Qed.

End AgentRegistry.

(* ===================================================================== *)
(** ** Creating under an id that is taken *)
(* ===================================================================== *)

Lemma set_models_models st : set_models st (models st) = st.
Proof. now destruct st. Qed.

Lemma set_agents_agents st : set_agents st (agents st) = st.
Proof. now destruct st. Qed.

Lemma set_tools_tools st : set_tools st (tools st) = st.
Proof. now destruct st. Qed.

Lemma set_memory_managers_memory_managers st :
  set_memory_managers st (memory_managers st) = st.
Proof. now destruct st. Qed.

(** A request that is refused: nothing changed, and the status says so. *)
Ltac refused := left; split; [reflexivity | cbn; discriminate].

(** Each create handler either refuses the request and changes nothing, or
    answers 200 and assigns one entry under the posted id; what it assigns
    and what it answers do not depend on the registry it writes to. *)
Lemma create_tool_outcome (st : state) (p : request) :
  (snd (create_tool st p) = st /\ status_code (fst (create_tool st p)) <> 200)
  \/
  exists k v r,
    posted_id Tools p = Ok k /\ hashable k = true /\ status_code r = 200 /\
    forall d,
      create_tool (set_tools st d) p = (r, set_tools st (dict_set k v d)).
Proof.
  unfold create_tool, posted_id.
  destruct (parse_json_params p) as [| | | | | |fields]; try refused.
  rewrite !py_get_object; cbn [bind]. unfold dict_assign, py_hash.
  destruct (hashable (field_or fields "id" (JStr "default-tool"))) eqn:Hh;
    [|refused].
  right. do 3 eexists. split; [reflexivity|]. split; [exact Hh|].
  split; [|intros d; reflexivity]. reflexivity.
Qed.

(** The next statement of a handler that can raise, up to the assignment
    to the registry: it raises, and the request is refused, or it goes on. *)
Ltac next_statement :=
  match goal with
  | |- context [bind ?c _] =>
      lazymatch c with
      | dict_assign _ _ _ => fail
      | _ => idtac
      end;
      destruct c eqn:?; cbn [bind]; [|refused]
  end.

(** The assignment itself: the key is hashable, or the request is refused. *)
Ltac assignment :=
  unfold dict_assign, py_hash;
  match goal with
  | |- context [hashable ?k] => destruct (hashable k) eqn:?; [|refused]
  end;
  right; do 3 eexists;
  split; [reflexivity|];
  split; [eassumption|];
  split; [|intros d; reflexivity]; reflexivity.

Section Outcomes.

Variable environ : string -> option string.
Variable repr_other : json -> string.

Lemma create_model_outcome (st : state) (p : request) :
  (snd (create_model environ repr_other st p) = st /\
   status_code (fst (create_model environ repr_other st p)) <> 200)
  \/
  exists k v r,
    posted_id Models p = Ok k /\ hashable k = true /\ status_code r = 200 /\
    forall d,
      create_model environ repr_other (set_models st d) p =
        (r, set_models st (dict_set k v d)).
Proof.
  unfold create_model, posted_id, store_model.
  do 5 next_statement.
  match goal with |- context [String.eqb ?s "openai"] =>
    destruct (String.eqb s "openai") end.
  - do 4 next_statement. assignment.
  - match goal with |- context [String.eqb ?s "anthropic"] =>
      destruct (String.eqb s "anthropic") end; [|refused].
    do 4 next_statement. assignment.
Qed.

Lemma create_agent_outcome (st : state) (p : request) :
  (snd (create_agent repr_other st p) = st /\
   status_code (fst (create_agent repr_other st p)) <> 200)
  \/
  exists k v r,
    posted_id Agents p = Ok k /\ hashable k = true /\ status_code r = 200 /\
    forall d,
      create_agent repr_other (set_agents st d) p =
        (r, set_agents st (dict_set k v d)).
Proof.
  unfold create_agent, posted_id, model_missing, model_for.
  cbn [models tools set_agents].
  do 6 next_statement.
  match goal with |- context [if ?b then _ else _] =>
    is_var b; destruct b end; [refused|].
  do 3 next_statement. assignment.
Qed.

Lemma create_memory_manager_outcome (st : state) (p : request) :
  (snd (create_memory_manager repr_other st p) = st /\
   status_code (fst (create_memory_manager repr_other st p)) <> 200)
  \/
  exists k v r,
    posted_id MemoryManagers p = Ok k /\ hashable k = true /\
    status_code r = 200 /\
    forall d,
      create_memory_manager repr_other (set_memory_managers st d) p =
        (r, set_memory_managers st (dict_set k v d)).
Proof.
  unfold create_memory_manager, posted_id, model_missing, model_for.
  cbn [models set_memory_managers].
  do 3 next_statement.
  match goal with |- context [if ?b then _ else _] =>
    is_var b; destruct b end; [refused|].
  do 2 next_statement. assignment.
Qed.

End Outcomes.

(** Two creates under one id, for any handler of that shape. *)
Lemma overwrite_by_outcome {V : Type}
    (h : state -> request -> reply * state)
    (get : state -> dict V) (set : state -> dict V -> state)
    (pid : request -> py json) :
  (forall st, set st (get st) = st) ->
  (forall st p,
      (snd (h st p) = st /\ status_code (fst (h st p)) <> 200) \/
      exists k v r,
        pid p = Ok k /\ hashable k = true /\ status_code r = 200 /\
        forall d, h (set st d) p = (r, set st (dict_set k v d))) ->
  forall st p1 p2,
    pid p1 = pid p2 ->
    status_code (fst (h st p2)) = 200 ->
    h (snd (h st p1)) p2 = h st p2.
Proof.
  intros Hset Hout st p1 p2 Hid H200.
  destruct (Hout st p2) as [[_ Hn]|(k2 & v2 & r2 & Hk2 & Hh & _ & H2)];
    [contradiction|].
  destruct (Hout st p1) as [[E1 _]|(k1 & v1 & r1 & Hk1 & _ & _ & H1)].
  - now rewrite E1.
  - assert (k1 = k2) by congruence. subst k1.
    pose proof (H1 (get st)) as E1. rewrite Hset in E1.
    pose proof (H2 (get st)) as E2. rewrite Hset in E2.
    rewrite E1; cbn [snd]. rewrite H2, E2. now rewrite dict_set_set.
Qed.

(** The next statement of a handler on its way to a 200: it raises, and the
    answer is not 200, or it goes on. *)
Ltac on_the_way :=
  match goal with
  | |- context [bind ?c _] =>
      lazymatch c with
      | dict_assign _ _ _ => fail
      | _ => idtac
      end;
      destruct c eqn:?; cbn [bind];
      [|let H := fresh in intros H; cbn in H; discriminate H]
  end.

(** The assignment on that way: the key is hashable, and what was built is
    found under it afterwards. *)
Ltac stored :=
  unfold dict_assign, py_hash;
  match goal with
  | |- context [hashable ?k] =>
      destruct (hashable k) eqn:?;
      [|let H := fresh in intros H; cbn in H; discriminate H]
  end;
  intros _; do 2 eexists;
  split; [reflexivity|];
  split; [eassumption|];
  split; [reflexivity|];
  cbn [bind try_except snd models agents tools memory_managers
       set_models set_agents set_tools set_memory_managers];
  rewrite dict_find_set_same by assumption; reflexivity.

Section Overwrite.

Variable environ : string -> option string.
Variable repr_other : json -> string.

(** A create request answered with 200 leaves, under the id it posted, the
    object the handler built from its parameters. *)
Lemma created_entry (r : registry) (st : state) (p : request) :
  status_code (fst (create environ repr_other r st p)) = 200 ->
  exists k e,
    posted_id r p = Ok k /\
    hashable k = true /\
    constructed environ r st (parse_json_params p) = Ok (Some e) /\
    registry_entry r (snd (create environ repr_other r st p)) k = Some e.
Proof.
  destruct r;
    unfold create, posted_id, constructed, registry_entry,
      create_model, create_agent, create_tool, create_memory_manager,
      store_model.
  - do 5 on_the_way.
    match goal with |- context [String.eqb ?s "openai"] =>
      destruct (String.eqb s "openai") end.
    + do 4 on_the_way. stored.
    + match goal with |- context [String.eqb ?s "anthropic"] =>
        destruct (String.eqb s "anthropic") end;
        [|intros H; cbn in H; discriminate H].
      do 4 on_the_way. stored.
  - do 6 on_the_way.
    match goal with |- context [if ?b then _ else _] =>
      is_var b; destruct b end; [intros H; cbn in H; discriminate H|].
    do 3 on_the_way. stored.
  - do 4 on_the_way. stored.
  - do 3 on_the_way.
    match goal with |- context [if ?b then _ else _] =>
      is_var b; destruct b end; [intros H; cbn in H; discriminate H|].
    do 2 on_the_way. stored.
Qed.

(** C4. Posting a create request under the id of an earlier one replaces
    what the earlier one stored, in each of the four registries.  Whenever
    the second request is one that succeeds: the entry found under the id
    after both requests is the object the handler builds from the second
    request alone, with nothing of the first entry merged in; the second
    request is answered as if the first had not been made (no conflict is
    reported); and the registries are, entry for entry, as after the second
    request alone.  When the first request succeeded too, what it stored
    under the id was the object built from the first request, so it is this
    entry that is replaced. *)
Theorem create_last_write_wins (r : registry) (st : state) (p1 p2 : request) :
  posted_id r p1 = posted_id r p2 ->
  status_code (fst (create environ repr_other r st p2)) = 200 ->
  let st1 := snd (create environ repr_other r st p1) in
  let twice := create environ repr_other r st1 p2 in
  twice = create environ repr_other r st p2 /\
  exists k e2,
    posted_id r p2 = Ok k /\
    constructed environ r st (parse_json_params p2) = Ok (Some e2) /\
    registry_entry r (snd twice) k = Some e2 /\
    (status_code (fst (create environ repr_other r st p1)) = 200 ->
     exists e1,
       constructed environ r st (parse_json_params p1) = Ok (Some e1) /\
       registry_entry r st1 k = Some e1).
Proof.
  intros Hid H200 st1 twice.
  assert (E : twice = create environ repr_other r st p2).
  { subst twice st1. revert Hid H200. destruct r; cbn [create].
    - apply (overwrite_by_outcome _ models set_models);
        auto using set_models_models, create_model_outcome.
    - apply (overwrite_by_outcome _ agents set_agents);
        auto using set_agents_agents, create_agent_outcome.
    - apply (overwrite_by_outcome _ tools set_tools);
        auto using set_tools_tools, create_tool_outcome.
    - apply (overwrite_by_outcome _ memory_managers set_memory_managers);
        auto using set_memory_managers_memory_managers,
          create_memory_manager_outcome. }
  split; [exact E|].
  destruct (created_entry r st p2 H200) as (k & e2 & Hk & _ & Hc & He).
  exists k, e2. rewrite E. repeat split; auto.
  intros H1.
  destruct (created_entry r st p1 H1) as (k1 & e1 & Hk1 & _ & Hc1 & He1).
  assert (k1 = k) by congruence. subst k1.
  exists e1. auto.
Qed.

End Overwrite.

(* ===================================================================== *)
(** ** The handlers on concrete requests *)
(* ===================================================================== *)

(** Capacity 2 and the contents a, b, c: the store ends as b, c. *)
Lemma memory_fifo_bounded_witness :
  1 <= 2 /\
  exists mm,
    dict_find (JStr "mem")
      (memory_managers
         (add_all
            (snd (create_memory_manager repr_blank initial
                    (Body (JObj [("id", JStr "mem"); ("limit", JInt 2)]))))
            "mem" [JStr "a"; JStr "b"; JStr "c"])) = Some mm /\
    map mem_content (memories mm) = [JStr "b"; JStr "c"] /\
    Z.of_nat (List.length (memories mm)) <= 2.
Proof.
  assert (H : 1 <= 2) by lia. split; [exact H|].
  destruct (memory_fifo_bounded repr_blank initial "mem" 2
              [JStr "a"; JStr "b"; JStr "c"] H)
    as (mm & Hf & _ & Hm & Hlen & _).
  exists mm. repeat split; assumption.
Defined.

(** A model registered as 'm1' answers with [tool_calls], not toolCalls. *)
Lemma generate_key_counterexample :
  let st :=
    snd (create_model no_keys repr_blank initial
           (Body (JObj [("id", JStr "m1"); ("type", JStr "openai")]))) in
  let answer :=
    fst (generate_response st "m1" (Body (JObj [("messages", JArr [])]))) in
  is_some (dict_find (JStr "m1") (models st)) = true /\
  status_code answer = 200 /\
  reply_field "toolCalls" answer = None /\
  reply_field "tool_calls" answer = Some JNull.
Proof. repeat split. Qed.

Lemma generate_canned_witness :
  let st :=
    snd (create_model no_keys repr_blank initial
           (Body (JObj [("id", JStr "m1"); ("type", JStr "anthropic")]))) in
  let msgs := [JObj [("role", JStr "user"); ("content", JStr "hello")];
               JObj [("content", JStr "anyone there?")]] in
  generate_response st "m1" (Body (JObj [("messages", JArr msgs)])) =
    (Reply 200
       (JObj [("content",
               JStr "This is a response from the simulated Claude model.");
              ("role", JStr "assistant");
              ("tool_calls", JNull)]),
     st).
Proof.
  intros st msgs.
  refine (generate_canned st "m1" (Body (JObj [("messages", JArr msgs)]))
            [("messages", JArr msgs)] msgs _ eq_refl eq_refl eq_refl _).
  repeat constructor.
Defined.

(** The type 'OpenAI' is neither 'openai' nor 'anthropic', and the request
    is served: 200, and a model is registered. *)
Lemma create_model_mixed_case_counterexample :
  let r := create_model no_keys repr_blank initial
             (Body (JObj [("type", JStr "OpenAI")])) in
  "OpenAI" <> "openai" /\ "OpenAI" <> "anthropic" /\
  status_code (fst r) = 200 /\
  dict_keys (models initial) = [] /\
  dict_keys (models (snd r)) = [JStr "default-model"].
Proof. repeat split; discriminate. Qed.

Lemma create_model_unsupported_witness :
  create_model no_keys repr_blank initial
    (Body (JObj [("type", JStr "unsupported"); ("id", JStr "m")])) =
    (Reply 400 (JObj [("error", JStr "Unsupported model type: unsupported")]),
     initial).
Proof.
  refine (create_model_unsupported no_keys repr_blank initial
            (Body (JObj [("type", JStr "unsupported"); ("id", JStr "m")]))
            [("type", JStr "unsupported"); ("id", JStr "m")] "unsupported"
            eq_refl eq_refl _ _); vm_compute; discriminate.
Defined.

Lemma generate_unknown_model_witness :
  generate_response initial "nobody" (Body (JObj [])) =
    (Reply 404 (JObj [("error", JStr "Model nobody not found")]), initial).
Proof.
  exact (generate_unknown_model initial "nobody" (Body (JObj [])) eq_refl).
Defined.

Lemma create_model_openai_defaults_witness :
  let req := Body (JObj [("id", JStr "m"); ("name", JStr "Main")]) in
  let m := mkModel OpenAIChat (JStr "gpt-4o") (JStr "Main") JNull
             (JFloat (3152519739159347 # 4503599627370496)) JNull JNull in
  create_model no_keys repr_blank initial req =
    (Reply 200 (JObj [("id", JStr "m"); ("name", JStr "Main");
                      ("type", JStr "openai"); ("status", JStr "created")]),
     set_models initial [(JStr "m", m)]) /\
  dict_find (JStr "m")
    (models (snd (create_model no_keys repr_blank initial req))) = Some m.
Proof.
  intros req m.
  exact (create_model_openai_defaults no_keys repr_blank initial req
           [("id", JStr "m"); ("name", JStr "Main")]
           eq_refl eq_refl eq_refl eq_refl).
Defined.

Lemma create_model_case_insensitive_witness :
  exists m,
    create_model no_keys repr_blank initial
      (Body (JObj [("type", JStr "ANTHROPIC"); ("id", JStr "c")])) =
      (Reply 200 (JObj [("id", JStr "c"); ("name", JStr "Default Model");
                        ("type", JStr "ANTHROPIC");
                        ("status", JStr "created")]),
       set_models initial [(JStr "c", m)]) /\
    cls m = Claude.
Proof.
  destruct (create_model_case_insensitive no_keys repr_blank initial
              (Body (JObj [("type", JStr "ANTHROPIC"); ("id", JStr "c")]))
              [("type", JStr "ANTHROPIC"); ("id", JStr "c")] "ANTHROPIC"
              eq_refl eq_refl (or_intror eq_refl) I eq_refl)
    as (m & E & Hc & _).
  exists m. split; [exact E | exact Hc].
Defined.

(** In each registry, a second create under the id of a first: what is
    found under the id afterwards is built from the second request only.
    An OpenAI model with a temperature and a system prompt of its own is
    replaced by a Claude model with the defaults; an agent, a tool and a
    memory manager lose the name, system prompt, description, parameters
    and limit of the first request. *)
Lemma create_last_write_wins_witness :
  let twice r p1 p2 :=
    snd (create no_keys repr_blank r
           (snd (create no_keys repr_blank r initial p1)) p2) in
  registry_entry Models
    (twice Models
       (Body (JObj [("id", JStr "m"); ("type", JStr "openai");
                    ("config", JObj [("temperature", JInt 1);
                                     ("systemPrompt", JStr "Be brief.")])]))
       (Body (JObj [("id", JStr "m"); ("type", JStr "anthropic")])))
    (JStr "m") =
    Some (AModel (mkModel Claude (JStr "claude-3-7-sonnet-20250219")
                    (JStr "Default Model") JNull (JFloat float_0_7)
                    JNull JNull)) /\
  registry_entry Agents
    (twice Agents
       (Body (JObj [("id", JStr "a"); ("name", JStr "Ann");
                    ("systemPrompt", JStr "Be brief.")]))
       (Body (JObj [("id", JStr "a"); ("name", JStr "Bob")])))
    (JStr "a") =
    Some (AnAgent (mkAgent (JStr "Bob") (JStr "a") None (JStr "") []
                     JNull JNull)) /\
  registry_entry Tools
    (twice Tools
       (Body (JObj [("id", JStr "t"); ("name", JStr "search");
                    ("description", JStr "Searches.");
                    ("parameters", JObj [("q", JStr "string")])]))
       (Body (JObj [("id", JStr "t"); ("name", JStr "clock")])))
    (JStr "t") =
    Some (ATool (mkFunction (JStr "clock") (JStr "") (JObj []))) /\
  registry_entry MemoryManagers
    (twice MemoryManagers
       (Body (JObj [("id", JStr "mem"); ("limit", JInt 5)]))
       (Body (JObj [("id", JStr "mem")])))
    (JStr "mem") =
    Some (AMemoryManager (mkMemoryManager None (JInt 100) [])).
Proof.
  intros twice. subst twice. cbv beta.
  split; [|split; [|split]].
  - destruct (create_last_write_wins no_keys repr_blank Models initial
                (Body (JObj [("id", JStr "m"); ("type", JStr "openai");
                             ("config",
                              JObj [("temperature", JInt 1);
                                    ("systemPrompt", JStr "Be brief.")])]))
                (Body (JObj [("id", JStr "m"); ("type", JStr "anthropic")]))
                eq_refl eq_refl)
      as (_ & k & e & Hk & Hc & He & _).
    vm_compute in Hk, Hc. injection Hk as <-. injection Hc as <-. exact He.
  - destruct (create_last_write_wins no_keys repr_blank Agents initial
                (Body (JObj [("id", JStr "a"); ("name", JStr "Ann");
                             ("systemPrompt", JStr "Be brief.")]))
                (Body (JObj [("id", JStr "a"); ("name", JStr "Bob")]))
                eq_refl eq_refl)
      as (_ & k & e & Hk & Hc & He & _).
    vm_compute in Hk, Hc. injection Hk as <-. injection Hc as <-. exact He.
  - destruct (create_last_write_wins no_keys repr_blank Tools initial
                (Body (JObj [("id", JStr "t"); ("name", JStr "search");
                             ("description", JStr "Searches.");
                             ("parameters", JObj [("q", JStr "string")])]))
                (Body (JObj [("id", JStr "t"); ("name", JStr "clock")]))
                eq_refl eq_refl)
      as (_ & k & e & Hk & Hc & He & _).
    vm_compute in Hk, Hc. injection Hk as <-. injection Hc as <-. exact He.
  - destruct (create_last_write_wins no_keys repr_blank MemoryManagers
                initial
                (Body (JObj [("id", JStr "mem"); ("limit", JInt 5)]))
                (Body (JObj [("id", JStr "mem")]))
                eq_refl eq_refl)
      as (_ & k & e & Hk & Hc & He & _).
    vm_compute in Hk, Hc. injection Hk as <-. injection Hc as <-. exact He.
Defined.

(** Tools t1 and t3 are registered, t2 is not: the agent holds two tools. *)
Lemma create_agent_drops_missing_tools_witness :
  let st1 :=
    snd (create_tool initial
           (Body (JObj [("id", JStr "t1"); ("name", JStr "search")]))) in
  let st := snd (create_tool st1
                   (Body (JObj [("id", JStr "t3"); ("name", JStr "clock")]))) in
  let req := Body (JObj [("id", JStr "a1");
                         ("tools", JArr [JStr "t1"; JStr "t2"; JStr "t3"])]) in
  exists a,
    status_code (fst (create_agent repr_blank st req)) = 200 /\
    dict_find (JStr "a1") (agents (snd (create_agent repr_blank st req))) =
      Some a /\
    a_tools a = [mkFunction (JStr "search") (JStr "") (JObj []);
                 mkFunction (JStr "clock") (JStr "") (JObj [])].
Proof.
  intros st1 st req.
  assert (Hids : Forall (fun i => hashable i = true)
                   [JStr "t1"; JStr "t2"; JStr "t3"])
    by (repeat constructor).
  destruct (create_agent_drops_missing_tools repr_blank st req
              [("id", JStr "a1");
               ("tools", JArr [JStr "t1"; JStr "t2"; JStr "t3"])]
              [JStr "t1"; JStr "t2"; JStr "t3"]
              eq_refl eq_refl Hids eq_refl eq_refl)
    as (a & E & Hf & Ht).
  exists a. split; [now rewrite E|]. split; [exact Hf | exact Ht].
Defined.

(** An agent without a model, and one with a model. *)
Lemma run_agent_content_witness :
  let without :=
    snd (create_agent repr_blank initial
           (Body (JObj [("id", JStr "a1"); ("name", JStr "Ann")]))) in
  let st1 := snd (create_model no_keys repr_blank initial
                    (Body (JObj [("id", JStr "m1")]))) in
  let with_model :=
    snd (create_agent repr_blank st1
           (Body (JObj [("id", JStr "a2"); ("name", JStr "Bob");
                        ("modelId", JStr "m1")]))) in
  fst (run_agent repr_blank without "a1"
         (Body (JObj [("message", JStr "hi")]))) =
    Reply 200 (JObj [("content", JStr "No model available for this agent");
                     ("agentId", JStr "a1"); ("workspaceId", JNull)]) /\
  fst (run_agent repr_blank with_model "a2"
         (Body (JObj [("message", JStr "hi"); ("workspaceId", JInt 7)]))) =
    Reply 200 (JObj [("content",
                      JStr "I am Bob, executing a response based on: hi");
                     ("agentId", JStr "a2"); ("workspaceId", JInt 7)]).
Proof.
  intros without st1 with_model. split.
  - exact (run_agent_content repr_blank without "a1"
             (Body (JObj [("message", JStr "hi")]))
             [("message", JStr "hi")] _ eq_refl eq_refl).
  - exact (run_agent_content repr_blank with_model "a2"
             (Body (JObj [("message", JStr "hi"); ("workspaceId", JInt 7)]))
             [("message", JStr "hi"); ("workspaceId", JInt 7)] _
             eq_refl eq_refl).
Defined.

(** C7. The handler at a workspace id that is provided and falsy: an agent
    is run with the message 'hi' and the workspace id 0.  The session id is
    to become the workspace id as a string, '0' (so says the handler's own
    comment, 'If workspace_id is provided, set up session context'); the
    test [if workspace_id:] skips the assignment and the session id stays
    unset. *)
Lemma run_agent_workspace_id_zero :
  let st := snd (create_agent repr_blank initial
                   (Body (JObj [("id", JStr "a1"); ("name", JStr "Ann")]))) in
  let fields := [("message", JStr "hi"); ("workspaceId", JInt 0)] in
  let st' := snd (run_agent repr_blank st "a1" (Body (JObj fields))) in
  lookup "workspaceId" fields = Some (JInt 0) /\
  py_str repr_blank (JInt 0) = "0" /\
  option_map session_id (dict_find (JStr "a1") (agents st')) = Some JNull /\
  option_map session_id (dict_find (JStr "a1") (agents st')) <>
    Some (JStr "0").
Proof. repeat split; discriminate. Qed.

Lemma run_agent_frame_witness :
  let st := snd (create_agent repr_blank initial
                   (Body (JObj [("id", JStr "a1"); ("name", JStr "Ann")]))) in
  let req := Body (JObj [("message", JStr "hi"); ("workspaceId", JInt 7)]) in
  snd (run_agent repr_blank st "a1" req) =
    set_agents st
      [(JStr "a1",
        mkAgent (JStr "Ann") (JStr "a1") None (JStr "") []
          (JStr "hi") (JStr "7"))].
Proof.
  intros st req.
  exact (proj1 (run_agent_frame repr_blank st "a1" req
                  [("message", JStr "hi"); ("workspaceId", JInt 7)] _
                  eq_refl eq_refl)).
Defined.

(* ===================================================================== *)
(** ** More on the registries as dicts *)
(* ===================================================================== *)

Lemma Qeq_bool_cong x y z :
  Qeq_bool x y = true -> Qeq_bool x z = Qeq_bool y z.
Proof.
  intros H. apply Qeq_bool_iff in H.
  destruct (Qeq_bool y z) eqn:E.
  - apply Qeq_bool_iff in E. apply Qeq_bool_iff. now rewrite H.
  - destruct (Qeq_bool x z) eqn:E'; [|reflexivity].
    apply Qeq_bool_iff in E'. rewrite H in E'. apply Qeq_bool_iff in E'.
    congruence.
Qed.

(** Keys that are equal are equal to the same keys. *)
Lemma py_eqb_cong a b c : py_eqb a b = true -> py_eqb a c = py_eqb b c.
Proof.
  destruct a, b; cbn; intros H; try discriminate H; try reflexivity;
    try (apply String.eqb_eq in H; now subst);
    destruct c; cbn; try reflexivity; now apply Qeq_bool_cong.
Qed.

Section DictMore.

Context {V : Type}.

Lemma dict_find_set_other (k k' : json) (v : V) (d : dict V) :
  py_eqb k k' = false -> dict_find k' (dict_set k v d) = dict_find k' d.
Proof.
  intros Hk. induction d as [|[k0 v0] rest IH]; cbn [dict_find dict_set].
  - now rewrite Hk.
  - destruct (py_eqb k0 k) eqn:E; cbn [dict_find].
    + rewrite (py_eqb_cong k0 k k' E), Hk. reflexivity.
    + now rewrite IH.
Qed.

Lemma dict_find_set_kept (k k' : json) (v : V) (d : dict V) :
  is_some (dict_find k' d) = true ->
  is_some (dict_find k' (dict_set k v d)) = true.
Proof.
  induction d as [|[k0 v0] rest IH]; cbn [dict_find dict_set].
  - discriminate.
  - destruct (py_eqb k0 k); cbn [dict_find];
      destruct (py_eqb k0 k'); auto.
Qed.

Lemma dict_keys_set_absent (k : json) (v : V) (d : dict V) :
  dict_find k d = None ->
  dict_keys (dict_set k v d) = (dict_keys d ++ [k])%list.
Proof.
  unfold dict_keys. induction d as [|[k0 v0] rest IH]; cbn [dict_find dict_set].
  - reflexivity.
  - destruct (py_eqb k0 k); [discriminate|].
    intros H. cbn [map fst app]. now rewrite IH.
Qed.

(** The keys after an assignment: as before, or with the new key last. *)
Lemma dict_keys_set (k : json) (v : V) (d : dict V) :
  dict_keys (dict_set k v d) =
    (if is_some (dict_find k d) then dict_keys d else dict_keys d ++ [k])%list.
Proof.
  destruct (dict_find k d) eqn:E; cbn [is_some].
  - apply dict_keys_set_present. now rewrite E.
  - now apply dict_keys_set_absent.
Qed.

Lemma dict_find_none_keys (k : json) (d : dict V) :
  dict_find k d = None -> Forall (fun k' => py_eqb k' k = false) (dict_keys d).
Proof.
  unfold dict_keys. induction d as [|[k0 v0] rest IH]; cbn [dict_find map fst].
  - constructor.
  - destruct (py_eqb k0 k) eqn:E; [discriminate|]. auto.
Qed.

Lemma distinct_keys_snoc (ks : list json) (k : json) :
  hashable k = true ->
  Forall (fun k' => py_eqb k' k = false) ks ->
  distinct_keys ks -> distinct_keys (ks ++ [k]).
Proof.
  intros Hk. induction ks as [|k0 rest IH]; cbn [distinct_keys app].
  - auto.
  - intros Hall (Hh & Hrest & Hd). inversion Hall; subst.
    repeat split; auto. apply Forall_app; auto.
Qed.

Lemma distinct_keys_set (k : json) (v : V) (d : dict V) :
  hashable k = true ->
  distinct_keys (dict_keys d) -> distinct_keys (dict_keys (dict_set k v d)).
Proof.
  intros Hk Hd. rewrite dict_keys_set.
  destruct (dict_find k d) eqn:E; cbn [is_some]; [exact Hd|].
  apply distinct_keys_snoc; auto using dict_find_none_keys.
Qed.

End DictMore.

Lemma distinct_keys_NoDup (ks : list json) : distinct_keys ks -> NoDup ks.
Proof.
  induction ks as [|k rest IH]; cbn [distinct_keys].
  - constructor.
  - intros (Hh & Hrest & Hd). constructor; auto.
    intros Hin. rewrite Forall_forall in Hrest.
    specialize (Hrest k Hin). rewrite py_eqb_refl in Hrest by exact Hh.
    discriminate.
Qed.

(* ===================================================================== *)
(** ** What one call does to the registries *)
(* ===================================================================== *)

(** A handler of the create shape, at the registries it is given. *)
Lemma outcome_here {V : Type}
    (h : state -> request -> reply * state)
    (get : state -> dict V) (set : state -> dict V -> state)
    (pid : request -> py json) (st : state) (p : request) :
  set st (get st) = st ->
  ((snd (h st p) = st /\ status_code (fst (h st p)) <> 200) \/
   exists k v r,
     pid p = Ok k /\ hashable k = true /\ status_code r = 200 /\
     forall d, h (set st d) p = (r, set st (dict_set k v d))) ->
  (snd (h st p) = st /\ status_code (fst (h st p)) <> 200) \/
  exists k v,
    pid p = Ok k /\ hashable k = true /\
    status_code (fst (h st p)) = 200 /\
    snd (h st p) = set st (dict_set k v (get st)).
Proof.
  intros Hset [Hl|(k & v & r & Hk & Hh & Hr & Hd)]; [now left|].
  right. exists k, v. specialize (Hd (get st)). rewrite Hset in Hd.
  rewrite Hd. auto.
Qed.

Lemma generate_response_state (st : state) (mid : string) (req : request) :
  snd (generate_response st mid req) = st.
Proof.
  unfold generate_response.
  destruct (dict_find (JStr mid) (models st)); cbn [negb is_some];
    [|reflexivity].
  repeat match goal with
         | |- context [bind ?c _] => destruct c; cbn [bind try_except snd]
         end; reflexivity.
Qed.

(** [add_memory] returns [True] and touches the list of memories only. *)
Lemma MemoryManager_add_memory_ok (self : MemoryManager) (c : json)
    (r : bool * MemoryManager) :
  MemoryManager_add_memory self c = Ok r ->
  exists kept, r = (true, mkMemoryManager (mm_model self) (limit self) kept).
Proof.
  unfold MemoryManager_add_memory.
  destruct (py_int_ge _ _) as [full|e]; cbn [bind]; [|discriminate].
  destruct (if full then pop0 (memories self) else Ok (memories self))
    as [kept|e]; cbn [bind]; [|discriminate].
  intros H. injection H as <-. eauto.
Qed.

Section Writes.

Variable environ : string -> option string.
Variable repr_other : json -> string.

Lemma run_agent_result (st : state) (aid : string) (req : request) :
  (snd (run_agent repr_other st aid req) = st /\
   status_code (fst (run_agent repr_other st aid req)) <> 200)
  \/
  exists a a',
    dict_find (JStr aid) (agents st) = Some a /\
    status_code (fst (run_agent repr_other st aid req)) = 200 /\
    snd (run_agent repr_other st aid req) =
      set_agents st (dict_set (JStr aid) a' (agents st)).
Proof.
  unfold run_agent, dict_getitem.
  destruct (dict_find (JStr aid) (agents st)) as [a|] eqn:Hf;
    cbn [negb is_some py_hash hashable bind];
    [|left; split; [reflexivity | cbn; discriminate]].
  destruct (parse_json_params req);
    try (left; split; [reflexivity | cbn; discriminate]).
  right. rewrite !py_get_object. cbn [bind try_except fst snd status_code].
  eauto.
Qed.

Lemma add_memory_result (st : state) (mid : string) (req : request) :
  (snd (add_memory st mid req) = st /\
   status_code (fst (add_memory st mid req)) <> 200)
  \/
  exists mm c kept,
    dict_find (JStr mid) (memory_managers st) = Some mm /\
    py_get (parse_json_params req) "content" (JStr "") = Ok c /\
    MemoryManager_add_memory mm c =
      Ok (true, mkMemoryManager (mm_model mm) (limit mm) kept) /\
    add_memory st mid req =
      (Reply 200 (JObj [("result", JBool true); ("status", JStr "success")]),
       set_memory_managers st
         (dict_set (JStr mid) (mkMemoryManager (mm_model mm) (limit mm) kept)
            (memory_managers st))).
Proof.
  unfold add_memory, dict_getitem.
  destruct (dict_find (JStr mid) (memory_managers st)) as [mm|] eqn:Hf;
    cbn [negb is_some py_hash hashable bind];
    [|left; split; [reflexivity | cbn; discriminate]].
  destruct (py_get (parse_json_params req) "content" (JStr ""))
    as [c|e] eqn:Hc;
    cbn [bind]; [|left; split; [reflexivity | cbn; discriminate]].
  destruct (MemoryManager_add_memory mm c) as [r|e] eqn:Ha;
    cbn [bind try_except fst snd];
    [|left; split; [reflexivity | cbn; discriminate]].
  destruct (MemoryManager_add_memory_ok mm c r Ha) as (kept & ->).
  right. exists mm, c, kept. auto.
Qed.

Lemma create_result (r : registry) (st : state) (p : request) :
  (snd (create environ repr_other r st p) = st /\
   status_code (fst (create environ repr_other r st p)) <> 200)
  \/
  exists k,
    posted_id r p = Ok k /\ hashable k = true /\
    status_code (fst (create environ repr_other r st p)) = 200 /\
    match r with
    | Models =>
        exists v, snd (create environ repr_other r st p) =
                    set_models st (dict_set k v (models st))
    | Agents =>
        exists v, snd (create environ repr_other r st p) =
                    set_agents st (dict_set k v (agents st))
    | Tools =>
        exists v, snd (create environ repr_other r st p) =
                    set_tools st (dict_set k v (tools st))
    | MemoryManagers =>
        exists v, snd (create environ repr_other r st p) =
                    set_memory_managers st
                      (dict_set k v (memory_managers st))
    end.
Proof.
  destruct r; cbn [create].
  - destruct (outcome_here _ models set_models (posted_id Models) st p
                (set_models_models st)
                (create_model_outcome environ repr_other st p))
      as [H|(k & v & H1 & H2 & H3 & H4)]; [now left|right; eauto 6].
  - destruct (outcome_here _ agents set_agents (posted_id Agents) st p
                (set_agents_agents st)
                (create_agent_outcome repr_other st p))
      as [H|(k & v & H1 & H2 & H3 & H4)]; [now left|right; eauto 6].
  - destruct (outcome_here _ tools set_tools (posted_id Tools) st p
                (set_tools_tools st) (create_tool_outcome st p))
      as [H|(k & v & H1 & H2 & H3 & H4)]; [now left|right; eauto 6].
  - destruct (outcome_here _ memory_managers set_memory_managers
                (posted_id MemoryManagers) st p
                (set_memory_managers_memory_managers st)
                (create_memory_manager_outcome repr_other st p))
      as [H|(k & v & H1 & H2 & H3 & H4)]; [now left|right; eauto 6].
Qed.

(** Every call either leaves the registries alone and does not answer 200,
    or answers 200 and makes at most one assignment. *)
Lemma serve_result (st : state) (c : call) :
  (snd (serve environ repr_other st c) = st \/
   status_code (fst (serve environ repr_other st c)) = 200) /\
  one_write st (snd (serve environ repr_other st c)).
Proof.
  destruct c as [p|mid p|p|aid p|p|p|mid p|]; cbn [serve].
  - destruct (create_result Models st p) as [[E _]|(k & _ & Hh & H2 & v & E)];
      cbn [create] in *; rewrite E; split; auto; constructor; auto.
  - rewrite generate_response_state. split; auto; constructor.
  - destruct (create_result Agents st p) as [[E _]|(k & _ & Hh & H2 & v & E)];
      cbn [create] in *; rewrite E; split; auto; constructor; auto.
  - destruct (run_agent_result st aid p) as [[E _]|(a & a' & _ & H2 & E)];
      rewrite E; split; auto; constructor; auto.
  - destruct (create_result Tools st p) as [[E _]|(k & _ & Hh & H2 & v & E)];
      cbn [create] in *; rewrite E; split; auto; constructor; auto.
  - destruct (create_result MemoryManagers st p)
      as [[E _]|(k & _ & Hh & H2 & v & E)];
      cbn [create] in *; rewrite E; split; auto; constructor; auto.
  - destruct (add_memory_result st mid p)
      as [[E _]|(mm & c & kept & _ & _ & _ & E)];
      rewrite E; cbn [fst snd status_code]; split; auto; constructor; auto.
  - split; [now left | constructor].
Qed.

End Writes.

Lemma is_some_option_map {A B : Type} (f : A -> B) (o : option A) :
  is_some (option_map f o) = is_some o.
Proof. now destruct o. Qed.

Lemma one_write_keys (st st' : state) (r : registry) :
  one_write st st' ->
  (exists extra, registry_keys r st' = (registry_keys r st ++ extra)%list) /\
  (forall k, registered r st k = true -> registered r st' k = true) /\
  (distinct_keys (registry_keys r st) -> distinct_keys (registry_keys r st')).
Proof.
  assert (Hsame : (exists extra : list json,
             registry_keys r st = (registry_keys r st ++ extra)%list) /\
          (forall k, registered r st k = true -> registered r st k = true) /\
          (distinct_keys (registry_keys r st) ->
           distinct_keys (registry_keys r st))).
  { split; [exists []; now rewrite app_nil_r | auto]. }
  unfold registered, registry_entry.
  destruct 1 as [|k v Hk|k v Hk|k v Hk|k v Hk]; destruct r;
    cbn [registry_keys models agents tools memory_managers
         set_models set_agents set_tools set_memory_managers];
    try exact Hsame;
    (split; [|split]);
    [ rewrite dict_keys_set; destruct (is_some (dict_find k _));
        [exists []; now rewrite app_nil_r | now exists [k]]
    | intros k'; rewrite !is_some_option_map; apply dict_find_set_kept
    | now apply distinct_keys_set
    | rewrite dict_keys_set; destruct (is_some (dict_find k _));
        [exists []; now rewrite app_nil_r | now exists [k]]
    | intros k'; rewrite !is_some_option_map; apply dict_find_set_kept
    | now apply distinct_keys_set
    | rewrite dict_keys_set; destruct (is_some (dict_find k _));
        [exists []; now rewrite app_nil_r | now exists [k]]
    | intros k'; rewrite !is_some_option_map; apply dict_find_set_kept
    | now apply distinct_keys_set
    | rewrite dict_keys_set; destruct (is_some (dict_find k _));
        [exists []; now rewrite app_nil_r | now exists [k]]
    | intros k'; rewrite !is_some_option_map; apply dict_find_set_kept
    | now apply distinct_keys_set ].
Qed.

Section Calls.

Variable environ : string -> option string.
Variable repr_other : json -> string.

Lemma run_calls_keys (cs : list call) (r : registry) :
  forall st,
    (exists extra,
        registry_keys r (run_calls environ repr_other st cs) =
          (registry_keys r st ++ extra)%list) /\
    (forall k, registered r st k = true ->
               registered r (run_calls environ repr_other st cs) k = true) /\
    (distinct_keys (registry_keys r st) ->
     distinct_keys (registry_keys r (run_calls environ repr_other st cs))).
Proof.
  induction cs as [|c cs IH]; intros st.
  - cbn. split; [exists []; now rewrite app_nil_r | auto].
  - unfold run_calls; cbn [fold_left].
    fold (run_calls environ repr_other
            (snd (serve environ repr_other st c)) cs).
    destruct (one_write_keys st _ r
                (proj2 (serve_result environ repr_other st c)))
      as ((e1 & H1) & H2 & H3).
    destruct (IH (snd (serve environ repr_other st c)))
      as ((e2 & H4) & H5 & H6).
    split; [|split; auto].
    exists (e1 ++ e2)%list. now rewrite H4, H1, app_assoc.
Qed.

(** X1. A call that is not answered with 200 changes no registry. *)
Theorem serve_refusal_changes_nothing (st : state) (c : call) :
  status_code (fst (serve environ repr_other st c)) <> 200 ->
  snd (serve environ repr_other st c) = st.
Proof.
  intros H. destruct (proj1 (serve_result environ repr_other st c));
    [assumption | contradiction].
Qed.

(** X2. Generating a reply and asking for the status change no registry,
    whatever the model id and the body are and whatever is answered. *)
Theorem generate_and_status_read_only (st : state) (mid : string)
    (req : request) :
  snd (serve environ repr_other st (PostGenerate mid req)) = st /\
  snd (serve environ repr_other st GetStatus) = st.
Proof. split; [apply generate_response_state | reflexivity]. Qed.

(** X3. No sequence of calls takes an id out of a registry or moves it: the
    ids listed before are a prefix of the ids listed afterwards, and an id
    that was registered stays registered. *)
Theorem calls_never_unregister (st : state) (cs : list call) (r : registry) :
  (exists extra,
      registry_keys r (run_calls environ repr_other st cs) =
        (registry_keys r st ++ extra)%list) /\
  (forall k, registered r st k = true ->
             registered r (run_calls environ repr_other st cs) k = true).
Proof.
  destruct (run_calls_keys cs r st) as (H1 & H2 & _). auto.
Qed.

(** X4. Whatever calls were served since start-up, the status answer lists
    the ids of the four registries, and lists no id twice. *)
Theorem status_lists_each_id_once (cs : list call) :
  let st := run_calls environ repr_other initial cs in
  fst (get_status st) =
    Reply 200
      (JObj [("status", JStr "running");
             ("models", JArr (registry_keys Models st));
             ("agents", JArr (registry_keys Agents st));
             ("memory_managers", JArr (registry_keys MemoryManagers st));
             ("tools", JArr (registry_keys Tools st))]) /\
  forall r, NoDup (registry_keys r st).
Proof.
  intros st. split; [reflexivity|].
  intros r. apply distinct_keys_NoDup.
  destruct (run_calls_keys cs r initial) as (_ & _ & H). apply H.
  destruct r; exact I.
Qed.

(** X5. A create request that is answered with 200 has a hashable id, the
    id is registered afterwards, and the list of ids is as before when the
    id was registered already and has the id appended when it was not. *)
Theorem create_success_registers (r : registry) (st : state) (p : request) :
  status_code (fst (create environ repr_other r st p)) = 200 ->
  exists k,
    posted_id r p = Ok k /\
    hashable k = true /\
    registered r (snd (create environ repr_other r st p)) k = true /\
    registry_keys r (snd (create environ repr_other r st p)) =
      (if registered r st k
       then registry_keys r st
       else registry_keys r st ++ [k])%list.
Proof.
  intros H200.
  destruct (create_result environ repr_other r st p)
    as [[_ Hn]|(k & Hk & Hh & _ & Hst)]; [contradiction|].
  exists k. split; [exact Hk|]. split; [exact Hh|].
  unfold registered, registry_entry.
  destruct r; destruct Hst as (v & ->);
    cbn [registry_keys models agents tools memory_managers
         set_models set_agents set_tools set_memory_managers];
    rewrite !is_some_option_map, dict_keys_set, dict_find_set_same by exact Hh;
    split; reflexivity.
Qed.

(** X6. A create request touches one entry: every registry other than its
    own, and every entry of its own registry under another id, is as it
    was. *)
Theorem create_touches_one_entry (r : registry) (st : state) (p : request)
    (k : json) (r' : registry) (k' : json) :
  posted_id r p = Ok k ->
  r' <> r \/ py_eqb k k' = false ->
  registry_entry r' (snd (create environ repr_other r st p)) k' =
    registry_entry r' st k'.
Proof.
  intros Hk Hother.
  destruct (create_result environ repr_other r st p)
    as [[-> _]|(k0 & Hk0 & Hh & _ & Hst)]; [reflexivity|].
  assert (k0 = k) by congruence. subst k0.
  destruct r; destruct Hst as (v & ->); destruct r';
    cbn [registry_entry models agents tools memory_managers
         set_models set_agents set_tools set_memory_managers];
    try reflexivity;
    (destruct Hother as [Hr|Hpy]; [congruence|]);
    now rewrite dict_find_set_other.
Qed.

End Calls.

(* ===================================================================== *)
(** ** More on the model registry *)
(* ===================================================================== *)

Section ModelsMore.

Variable environ : string -> option string.
Variable repr_other : json -> string.

(** X7. A create-model request with a config object takes each of model,
    temperature, maxTokens and systemPrompt from the config when it is
    there and falls back to the default of its own when it is not; the API
    key of the stored model is the provider's environment variable, not
    anything in the request. *)
Theorem create_model_config_fields (st : state) (req : request)
    (fields cfg : list (string * json)) (t : string) :
  parse_json_params req = JObj fields ->
  field_or fields "type" (JStr "openai") = JStr t ->
  lower t = "openai" \/ lower t = "anthropic" ->
  field_or fields "config" (JObj []) = JObj cfg ->
  hashable (model_id_of fields) = true ->
  let openai := String.eqb (lower t) "openai" in
  dict_find (model_id_of fields)
    (models (snd (create_model environ repr_other st req))) =
    Some (mkModel
            (if openai then OpenAIChat else Claude)
            (field_or cfg "model"
               (JStr (if openai then "gpt-4o"
                      else "claude-3-7-sonnet-20250219")))
            (model_name_of fields)
            (getenv environ
               (if openai then "OPENAI_API_KEY" else "ANTHROPIC_API_KEY"))
            (field_or cfg "temperature" (JFloat float_0_7))
            (field_or cfg "maxTokens" JNull)
            (field_or cfg "systemPrompt" JNull)).
Proof.
  intros Hp Ht Hl Hc Hh openai. subst openai.
  rewrite (create_model_object environ repr_other st req fields t Hp Ht), Hc.
  cbv zeta. rewrite !item_or_object.
  unfold store_model, dict_assign, py_hash. rewrite Hh.
  destruct Hl as [Hl|Hl]; rewrite Hl;
    cbn [String.eqb Ascii.eqb Bool.eqb bind try_except snd models set_models];
    now apply dict_find_set_same.
Qed.

(** X8. A create-model request whose type is there and is not a string
    (a number, null, a list, ...) is answered 500, and nothing is
    registered. *)
Theorem create_model_type_not_string (st : state) (req : request)
    (fields : list (string * json)) (v : json) :
  parse_json_params req = JObj fields ->
  lookup "type" fields = Some v ->
  (forall s, v <> JStr s) ->
  create_model environ repr_other st req = (ServerError AttributeError, st).
Proof.
  intros Hp Hv Hns. unfold create_model.
  rewrite Hp, !item_or_object; cbn [bind].
  unfold field_or at 1. rewrite Hv.
  destruct v; try reflexivity. now destruct (Hns s).
Qed.

(** X9. A request whose body cannot be parsed is not refused by the create
    handlers: the parse error is turned into an object with the one key
    'error', so each handler runs on its defaults, answers 200 and
    registers its default id. *)
Theorem create_on_unparsable_body (r : registry) (st : state) (msg : string) :
  let out := create environ repr_other r st (BadBody msg) in
  status_code (fst out) = 200 /\
  reply_field "id" (fst out) = Some (default_id r) /\
  registered r (snd out) (default_id r) = true.
Proof.
  unfold registered, registry_entry.
  destruct r; cbn [create default_id].
  - rewrite (create_model_object environ repr_other st (BadBody msg)
               [("error", JStr msg)] "openai" eq_refl eq_refl).
    change (String.eqb (lower "openai") "openai") with true.
    cbn -[dict_find dict_set getenv]. repeat split.
    now rewrite dict_find_set_same.
  - cbn -[dict_find dict_set]; repeat split; now rewrite dict_find_set_same.
  - cbn -[dict_find dict_set]; repeat split; now rewrite dict_find_set_same.
  - cbn -[dict_find dict_set]; repeat split; now rewrite dict_find_set_same.
Qed.

(** X10. The create-model handler reads its body with [in] and
    subscription, which a list answers too: a body that is a JSON list
    holding none of the strings 'type', 'id', 'name' and 'config' is
    served like an empty object, and the default OpenAI model is
    registered under 'default-model'. *)
Theorem create_model_list_body (st : state) (items : list json) :
  py_contains "type" (JArr items) = Ok false ->
  py_contains "id" (JArr items) = Ok false ->
  py_contains "name" (JArr items) = Ok false ->
  py_contains "config" (JArr items) = Ok false ->
  create_model environ repr_other st (Body (JArr items)) =
    (Reply 200 (JObj [("id", JStr "default-model");
                      ("name", JStr "Default Model");
                      ("type", JStr "openai"); ("status", JStr "created")]),
     set_models st
       (dict_set (JStr "default-model")
          (mkModel OpenAIChat (JStr "gpt-4o") (JStr "Default Model")
             (getenv environ "OPENAI_API_KEY") (JFloat float_0_7) JNull JNull)
          (models st))).
Proof.
  intros H1 H2 H3 H4. unfold create_model, item_or.
  cbn [parse_json_params]. rewrite H1, H2, H3, H4. reflexivity.
Qed.

(** X11. The handlers that read their body with [.get] answer 500 to a
    body that parses but is not a JSON object, and change nothing: the
    three other create handlers always, and generate, run and memory-add
    when the id in the path is registered. *)
Theorem non_object_body_refused (st : state) (j : json)
    (mid aid memid : string) :
  ~ is_object j ->
  create_agent repr_other st (Body j) = (ServerError AttributeError, st) /\
  create_tool st (Body j) = (ServerError AttributeError, st) /\
  create_memory_manager repr_other st (Body j) =
    (ServerError AttributeError, st) /\
  (is_some (dict_find (JStr mid) (models st)) = true ->
   generate_response st mid (Body j) =
     (ServerError AttributeError, st)) /\
  (is_some (dict_find (JStr aid) (agents st)) = true ->
   run_agent repr_other st aid (Body j) =
     (ServerError AttributeError, st)) /\
  (is_some (dict_find (JStr memid) (memory_managers st)) = true ->
   add_memory st memid (Body j) = (ServerError AttributeError, st)).
Proof.
  intros Hj.
  unfold create_agent, create_tool, create_memory_manager,
    generate_response, run_agent, add_memory, dict_getitem.
  destruct (dict_find (JStr mid) (models st));
    destruct (dict_find (JStr aid) (agents st));
    destruct (dict_find (JStr memid) (memory_managers st));
    destruct j; try (now destruct Hj);
    repeat split; intros; (reflexivity || discriminate).
Qed.

End ModelsMore.

(* ===================================================================== *)
(** ** More on the agent registry *)
(* ===================================================================== *)

Lemma model_for_value (st : state) (v : json) :
  model_missing st v = Ok false ->
  model_for st v =
    Ok (if py_truthy v then dict_find v (models st) else None).
Proof.
  unfold model_missing, model_for, dict_contains, dict_get, py_hash.
  destruct (py_truthy v); [|reflexivity].
  destruct (hashable v); [reflexivity|discriminate].
Qed.

Lemma model_missing_unknown (st : state) (v : json) :
  py_truthy v = true -> hashable v = true -> dict_find v (models st) = None ->
  model_missing st v = Ok true.
Proof.
  intros Ht Hh Hf. unfold model_missing, dict_contains, py_hash.
  now rewrite Ht, Hh, Hf.
Qed.

Section AgentsMore.

Variable environ : string -> option string.
Variable repr_other : json -> string.

Lemma create_agent_object (st : state) (req : request)
    (fields : list (string * json)) (ids : list json) :
  parse_json_params req = JObj fields ->
  field_or fields "tools" (JArr []) = JArr ids ->
  Forall (fun i => hashable i = true) ids ->
  model_missing st (field_or fields "modelId" JNull) = Ok false ->
  hashable (agent_id_of fields) = true ->
  create_agent repr_other st req =
    (Reply 200 (JObj [("id", agent_id_of fields);
                      ("name", field_or fields "name" (JStr "Default Agent"));
                      ("status", JStr "created")]),
     set_agents st
       (dict_set (agent_id_of fields)
          (mkAgent (field_or fields "name" (JStr "Default Agent"))
             (agent_id_of fields)
             (if py_truthy (field_or fields "modelId" JNull)
              then dict_find (field_or fields "modelId" JNull) (models st)
              else None)
             (field_or fields "systemPrompt" (JStr ""))
             (existing_tools (tools st) ids) JNull JNull)
          (agents st))).
Proof.
  intros Hp Ht Hids Hm Hh.
  unfold create_agent. rewrite Hp, !py_get_object; cbn [bind].
  rewrite Hm; cbn [bind]. rewrite (model_for_value st _ Hm), Ht.
  cbn [bind py_iter]. rewrite (resolve_tools_hashable _ _ Hids); cbn [bind].
  unfold dict_assign, py_hash. fold (agent_id_of fields). rewrite Hh.
  cbn [bind try_except]. unfold new_Agent.
  now destruct (existing_tools (tools st) ids).
Qed.

Lemma run_agent_object (st : state) (aid : string) (req : request)
    (fields : list (string * json)) (a : Agent) :
  dict_find (JStr aid) (agents st) = Some a ->
  parse_json_params req = JObj fields ->
  let a' := prepare_run repr_other a (field_or fields "message" (JStr ""))
              (field_or fields "workspaceId" JNull) in
  run_agent repr_other st aid req =
    (Reply 200 (JObj [("content", JStr (Agent_run repr_other a'));
                      ("agentId", JStr aid);
                      ("workspaceId", field_or fields "workspaceId" JNull)]),
     set_agents st (dict_set (JStr aid) a' (agents st))).
Proof.
  intros Hf Hp a'. unfold run_agent, dict_getitem.
  rewrite Hf, Hp, !py_get_object. reflexivity.
Qed.

(** X12. A create-agent or create-memory request that names a model id
    (truthy and hashable) which is not registered is answered 404 with
    'Model <id> not found', and nothing is registered. *)
Theorem unknown_model_refused (st : state) (req : request)
    (fields : list (string * json)) (v : json) :
  parse_json_params req = JObj fields ->
  lookup "modelId" fields = Some v ->
  py_truthy v = true ->
  hashable v = true ->
  dict_find v (models st) = None ->
  let refusal :=
    Reply 404
      (JObj [("error",
              JStr ("Model " ++ py_str repr_other v ++ " not found"))]) in
  create_agent repr_other st req = (refusal, st) /\
  create_memory_manager repr_other st req = (refusal, st).
Proof.
  intros Hp Hv Ht Hh Hf refusal.
  assert (E : field_or fields "modelId" JNull = v)
    by (unfold field_or; now rewrite Hv).
  unfold create_agent, create_memory_manager.
  rewrite Hp, !py_get_object, E; cbn [bind].
  rewrite (model_missing_unknown st v Ht Hh Hf). split; reflexivity.
Qed.

(** X13. Running an agent or adding a memory under an id that is not
    registered is answered 404 with a message naming the id, whatever the
    body is, and nothing is changed. *)
Theorem unknown_id_refused (st : state) (id : string) (req : request) :
  (dict_find (JStr id) (agents st) = None ->
   run_agent repr_other st id req =
     (Reply 404 (JObj [("error", JStr ("Agent " ++ id ++ " not found"))]),
      st)) /\
  (dict_find (JStr id) (memory_managers st) = None ->
   add_memory st id req =
     (Reply 404
        (JObj [("error", JStr ("Memory manager " ++ id ++ " not found"))]),
      st)).
Proof.
  unfold run_agent, add_memory. split; intros H; now rewrite H.
Qed.

(** X14. What a successful create-agent request stores: the name, id and
    system prompt of the request, the registered tools it names, and as
    model the registry's entry under the model id, or no model when the
    model id is missing or falsy (null, '', 0, false), even if a model is
    registered under such an id.  The stored agent has no user message and
    no session id, whatever an agent stored under that id before had. *)
Theorem create_agent_stored (st : state) (req : request)
    (fields : list (string * json)) (ids : list json) :
  parse_json_params req = JObj fields ->
  field_or fields "tools" (JArr []) = JArr ids ->
  Forall (fun i => hashable i = true) ids ->
  model_missing st (field_or fields "modelId" JNull) = Ok false ->
  hashable (agent_id_of fields) = true ->
  dict_find (agent_id_of fields)
    (agents (snd (create_agent repr_other st req))) =
    Some (mkAgent (field_or fields "name" (JStr "Default Agent"))
            (agent_id_of fields)
            (if py_truthy (field_or fields "modelId" JNull)
             then dict_find (field_or fields "modelId" JNull) (models st)
             else None)
            (field_or fields "systemPrompt" (JStr ""))
            (existing_tools (tools st) ids) JNull JNull).
Proof.
  intros Hp Ht Hids Hm Hh.
  rewrite (create_agent_object st req fields ids Hp Ht Hids Hm Hh).
  cbn [snd agents set_agents]. now apply dict_find_set_same.
Qed.

(** X15. Running an agent registers nothing and touches no entry but the
    agent's own, whatever the body is: the ids of the four registries are
    as before, and so is every entry under another id or in another
    registry. *)
Theorem run_agent_touches_one_agent (st : state) (aid : string)
    (req : request) :
  let st' := snd (run_agent repr_other st aid req) in
  (forall r, registry_keys r st' = registry_keys r st) /\
  (forall r k, r <> Agents \/ py_eqb (JStr aid) k = false ->
               registry_entry r st' k = registry_entry r st k).
Proof.
  intros st'. subst st'.
  destruct (run_agent_result repr_other st aid req)
    as [[-> _]|(a & a' & Hf & _ & ->)]; [split; reflexivity|].
  split.
  - intros r. destruct r; cbn; try reflexivity.
    apply dict_keys_set_present. now rewrite Hf.
  - intros r k Hother. destruct r; cbn; try reflexivity.
    destruct Hother as [Hr|Hk]; [congruence|].
    now rewrite dict_find_set_str_other.
Qed.

(** X16. The same for adding a memory; and the manager keeps the model and
    the limit it was created with. *)
Theorem add_memory_touches_one_manager (st : state) (mid : string)
    (req : request) :
  let st' := snd (add_memory st mid req) in
  (forall r, registry_keys r st' = registry_keys r st) /\
  (forall r k, r <> MemoryManagers \/ py_eqb (JStr mid) k = false ->
               registry_entry r st' k = registry_entry r st k) /\
  (forall mm, dict_find (JStr mid) (memory_managers st) = Some mm ->
              exists mm',
                dict_find (JStr mid) (memory_managers st') = Some mm' /\
                mm_model mm' = mm_model mm /\ limit mm' = limit mm).
Proof.
  intros st'. subst st'.
  destruct (add_memory_result st mid req)
    as [[-> _]|(mm & c & kept & Hf & _ & _ & ->)];
    [repeat split; eauto|].
  cbn [snd]. repeat split.
  - intros r. destruct r; cbn; try reflexivity.
    apply dict_keys_set_present. now rewrite Hf.
  - intros r k Hother. destruct r; cbn; try reflexivity.
    destruct Hother as [Hr|Hk]; [congruence|].
    now rewrite dict_find_set_str_other.
  - intros mm0 Hmm0. assert (mm0 = mm) by congruence. subst mm0.
    eexists. split; [cbn; now apply dict_find_set_same|]. split; reflexivity.
Qed.

(** X17. The session id of an agent outlives the call that set it: after a
    run with a truthy workspace id, a run with none (or a falsy one) leaves
    the session id of the first run in place, next to the message of the
    second. *)
Theorem session_id_sticky (st : state) (aid : string) (req1 req2 : request)
    (fields1 fields2 : list (string * json)) (a : Agent) :
  dict_find (JStr aid) (agents st) = Some a ->
  parse_json_params req1 = JObj fields1 ->
  parse_json_params req2 = JObj fields2 ->
  py_truthy (field_or fields1 "workspaceId" JNull) = true ->
  py_truthy (field_or fields2 "workspaceId" JNull) = false ->
  let st1 := snd (run_agent repr_other st aid req1) in
  let st2 := snd (run_agent repr_other st1 aid req2) in
  exists a2,
    dict_find (JStr aid) (agents st2) = Some a2 /\
    session_id a2 =
      JStr (py_str repr_other (field_or fields1 "workspaceId" JNull)) /\
    user_message a2 = field_or fields2 "message" (JStr "").
Proof.
  intros Hf Hp1 Hp2 Hw1 Hw2 st1 st2. subst st2 st1.
  rewrite (run_agent_object st aid req1 fields1 a Hf Hp1). cbn [snd].
  erewrite (run_agent_object _ aid req2 fields2);
    [| cbn [agents set_agents]; now apply dict_find_set_same | exact Hp2].
  cbn [snd agents set_agents]. eexists.
  split; [now apply dict_find_set_same|].
  unfold prepare_run. rewrite Hw1, Hw2. split; reflexivity.
Qed.

(** X18. The three steps together: after a model is created under a
    non-empty id and an agent is created with that model id, running the
    agent answers 'I am <name>, executing a response based on: <message>'. *)
Theorem model_agent_run (st : state) (s t a n msg : string) :
  s <> "" ->
  lower t = "openai" \/ lower t = "anthropic" ->
  let st1 :=
    snd (create_model environ repr_other st
           (Body (JObj [("id", JStr s); ("type", JStr t)]))) in
  let st2 :=
    snd (create_agent repr_other st1
           (Body (JObj [("id", JStr a); ("name", JStr n);
                        ("modelId", JStr s)]))) in
  fst (run_agent repr_other st2 a (Body (JObj [("message", JStr msg)]))) =
    Reply 200
      (JObj [("content",
              JStr ("I am " ++ n ++ ", executing a response based on: "
                      ++ msg));
             ("agentId", JStr a); ("workspaceId", JNull)]).
Proof.
  intros Hs Hl st1 st2.
  assert (H1 : exists m, dict_find (JStr s) (models st1) = Some m).
  { subst st1.
    rewrite (create_model_object environ repr_other st
               (Body (JObj [("id", JStr s); ("type", JStr t)]))
               [("id", JStr s); ("type", JStr t)] t eq_refl eq_refl).
    destruct Hl as [Hl|Hl]; rewrite Hl;
      cbn -[dict_find dict_set getenv]; eexists;
      now apply dict_find_set_same. }
  destruct H1 as (m & Hm).
  assert (Ht : py_truthy (JStr s) = true).
  { cbn. apply negb_true_iff. now apply String.eqb_neq. }
  assert (H2 : exists ag, dict_find (JStr a) (agents st2) = Some ag /\
                          model ag = Some m /\ name ag = JStr n).
  { subst st2.
    rewrite (create_agent_object st1
               (Body (JObj [("id", JStr a); ("name", JStr n);
                            ("modelId", JStr s)]))
               [("id", JStr a); ("name", JStr n); ("modelId", JStr s)] []);
      [| reflexivity | reflexivity | constructor | | reflexivity].
    - cbn [snd agents set_agents]. eexists.
      split; [now apply dict_find_set_same|].
      change (field_or _ "modelId" JNull) with (JStr s).
      cbn [model name]. rewrite Ht, Hm. split; reflexivity.
    - change (field_or _ "modelId" JNull) with (JStr s).
      unfold model_missing, dict_contains, py_hash.
      rewrite Ht; cbn [hashable bind]. now rewrite Hm. }
  destruct H2 as (ag & Hag & Hmodel & Hname).
  rewrite (run_agent_object st2 a (Body (JObj [("message", JStr msg)]))
             [("message", JStr msg)] ag Hag eq_refl).
  cbn [fst]. unfold Agent_run, prepare_run.
  change (field_or [("message", JStr msg)] "workspaceId" JNull) with JNull.
  change (field_or [("message", JStr msg)] "message" (JStr ""))
    with (JStr msg).
  cbn [py_truthy model name user_message set_user_message].
  now rewrite Hmodel, Hname.
Qed.

End AgentsMore.

(* ===================================================================== *)
(** ** Messages that cannot be read *)
(* ===================================================================== *)

Lemma item_or_raises (c : json) (k : string) (d : json) (e : exn) :
  item_or c k d = Raise e -> e = TypeError.
Proof.
  unfold item_or, py_contains, py_getitem.
  destruct c; cbn [bind]; try (intros H; now injection H);
    try (match goal with
         | |- context [if ?b then _ else _] => destruct b
         end; intros H; (discriminate H || now injection H)).
  destruct (lookup k fields); cbn [is_some]; discriminate.
Qed.

Lemma agno_messages_scalar (msgs : list json) :
  Exists is_scalar msgs -> agno_messages msgs = Raise TypeError.
Proof.
  induction 1 as [msg rest Hs|msg rest _ IH]; cbn [agno_messages].
  - destruct msg; try contradiction; reflexivity.
  - destruct (item_or msg "role" (JStr "user")) as [r|e] eqn:Er; cbn [bind];
      [|now rewrite (item_or_raises _ _ _ _ Er)].
    destruct (item_or msg "content" (JStr "")) as [c|e] eqn:Ec; cbn [bind];
      [|now rewrite (item_or_raises _ _ _ _ Ec)].
    now rewrite IH.
Qed.

(** X19. Generating on a registered model with messages that are not
    something to iterate over (null, a number, a boolean), or with a list
    of messages one of which is such a value, is answered 500; nothing is
    changed. *)
Theorem generate_unusable_messages (st : state) (mid : string)
    (req : request) (fields : list (string * json)) (v : json) (m : Model) :
  dict_find (JStr mid) (models st) = Some m ->
  parse_json_params req = JObj fields ->
  lookup "messages" fields = Some v ->
  is_scalar v \/ (exists msgs, v = JArr msgs /\ Exists is_scalar msgs) ->
  generate_response st mid req = (ServerError TypeError, st).
Proof.
  intros Hf Hp Hv Hbad. unfold generate_response, dict_getitem.
  rewrite Hf, Hp, py_get_object.
  unfold field_or. rewrite Hv.
  cbn [negb is_some py_hash hashable bind].
  destruct Hbad as [Hs|(msgs & -> & Hs)].
  - destruct v; try contradiction; reflexivity.
  - cbn [py_iter bind]. now rewrite (agno_messages_scalar msgs Hs).
Qed.

(* ===================================================================== *)
(** ** More on the bounded memory store *)
(* ===================================================================== *)

(** X20. A memory manager whose limit is not a number (a string such as
    '10', null, a list, an object) takes no memory: every add with an
    object body is answered 500 and the store is left as it is. *)
Theorem add_memory_limit_not_a_number (st : state) (mid : string)
    (req : request) (fields : list (string * json)) (mm : MemoryManager) :
  dict_find (JStr mid) (memory_managers st) = Some mm ->
  num_of (limit mm) = None ->
  parse_json_params req = JObj fields ->
  add_memory st mid req = (ServerError TypeError, st).
Proof.
  intros Hf Hn Hp. unfold add_memory, dict_getitem.
  rewrite Hf, Hp, py_get_object.
  cbn [negb is_some py_hash hashable bind].
  unfold MemoryManager_add_memory, py_int_ge. now rewrite Hn.
Qed.

(** X21. A memory manager whose limit is a number not above zero and whose
    store is empty takes no memory either: the add pops from the empty
    list, is answered 500, and the store stays empty. *)
Theorem add_memory_limit_not_positive (st : state) (mid : string)
    (req : request) (fields : list (string * json)) (mm : MemoryManager)
    (q : Q) :
  dict_find (JStr mid) (memory_managers st) = Some mm ->
  num_of (limit mm) = Some q ->
  (q <= 0)%Q ->
  memories mm = [] ->
  parse_json_params req = JObj fields ->
  add_memory st mid req = (ServerError IndexError, st).
Proof.
  intros Hf Hn Hq Hm Hp. unfold add_memory, dict_getitem.
  rewrite Hf, Hp, py_get_object.
  cbn [negb is_some py_hash hashable bind].
  unfold MemoryManager_add_memory, py_int_ge. rewrite Hn, Hm.
  cbn [List.length Z.of_nat bind].
  assert (E : Qle_bool q (inject_Z 0) = true) by now apply Qle_bool_iff.
  now rewrite E.
Qed.

Lemma MemoryManager_add_memory_bound (self : MemoryManager) (c : json)
    (r : bool * MemoryManager) (q : Q) (n : Z) :
  MemoryManager_add_memory self c = Ok r ->
  num_of (limit self) = Some q ->
  (q <= inject_Z n)%Q ->
  Z.of_nat (List.length (memories self)) <= n ->
  Z.of_nat (List.length (memories (snd r))) <= n.
Proof.
  unfold MemoryManager_add_memory, py_int_ge. intros H Hn Hq Hlen.
  rewrite Hn in H; cbn [bind] in H.
  destruct (Qle_bool q (inject_Z (Z.of_nat (List.length (memories self)))))
    eqn:E.
  - destruct (memories self) as [|m rest]; cbn [pop0 bind] in H;
      [discriminate|].
    injection H as <-. cbn [snd memories].
    rewrite length_app. cbn [List.length] in *. lia.
  - cbn [bind] in H. injection H as <-. cbn [snd memories].
    assert (Hlt : (inject_Z (Z.of_nat (List.length (memories self)))
                   < inject_Z n)%Q).
    { apply Qlt_le_trans with q; [|exact Hq].
      apply Qnot_le_lt. intros Hle. apply Qle_bool_iff in Hle. congruence. }
    rewrite <- Zlt_Qlt in Hlt.
    rewrite length_app. cbn [List.length]. lia.
Qed.

(** X22. With any numeric limit (an integer, a float, a boolean) the store
    stays within the limit rounded up: if [n] is an integer at or above
    the limit and the store holds at most [n] entries, it still does after
    any sequence of add requests, whatever their bodies and whichever of
    them fail; the limit itself is never changed. *)
Theorem memory_bound_any_numeric_limit (mid : string) (q : Q) (n : Z)
    (reqs : list request) (st : state) (mm : MemoryManager) :
  dict_find (JStr mid) (memory_managers st) = Some mm ->
  num_of (limit mm) = Some q ->
  (q <= inject_Z n)%Q ->
  Z.of_nat (List.length (memories mm)) <= n ->
  exists mm',
    dict_find (JStr mid) (memory_managers (add_requests st mid reqs)) =
      Some mm' /\
    limit mm' = limit mm /\
    Z.of_nat (List.length (memories mm')) <= n.
Proof.
  revert st mm. induction reqs as [|req reqs IH]; intros st mm Hf Hn Hq Hlen.
  - exists mm. auto.
  - unfold add_requests; cbn [fold_left].
    fold (add_requests (snd (add_memory st mid req)) mid reqs).
    destruct (add_memory_result st mid req)
      as [[-> _]|(mm0 & c & kept & Hf0 & _ & Ha & ->)];
      [now apply IH|].
    assert (mm0 = mm) by congruence. subst mm0. cbn [snd].
    pose proof (MemoryManager_add_memory_bound mm c _ q n Ha Hn Hq Hlen)
      as Hb.
    cbn [snd memories] in Hb.
    destruct (IH (set_memory_managers st
                    (dict_set (JStr mid)
                       (mkMemoryManager (mm_model mm) (limit mm) kept)
                       (memory_managers st)))
                 (mkMemoryManager (mm_model mm) (limit mm) kept))
      as (mm' & H1 & H2 & H3); auto.
    + cbn. now apply dict_find_set_same.
    + exists mm'. auto.
Qed.

(* ===================================================================== *)
(** ** These properties on concrete requests *)
(* ===================================================================== *)

Lemma serve_refusal_changes_nothing_witness :
  let c := PostModels (Body (JObj [("type", JStr "llama")])) in
  status_code (fst (serve no_keys repr_blank initial c)) <> 200 /\
  snd (serve no_keys repr_blank initial c) = initial.
Proof.
  intros c.
  assert (H : status_code (fst (serve no_keys repr_blank initial c)) <> 200)
    by (vm_compute; discriminate).
  split; [exact H|].
  exact (serve_refusal_changes_nothing no_keys repr_blank initial c H).
Defined.

Lemma create_success_registers_witness :
  let p := Body (JObj [("id", JStr "t1"); ("name", JStr "search")]) in
  exists k,
    posted_id Tools p = Ok k /\
    hashable k = true /\
    registered Tools (snd (create no_keys repr_blank Tools initial p)) k
      = true /\
    registry_keys Tools (snd (create no_keys repr_blank Tools initial p)) =
      (if registered Tools initial k then [] else [k]).
Proof.
  intros p.
  exact (create_success_registers no_keys repr_blank Tools initial p eq_refl).
Defined.

Lemma create_touches_one_entry_witness :
  let st :=
    snd (create_tool initial
           (Body (JObj [("id", JStr "t1"); ("name", JStr "search")]))) in
  let p := Body (JObj [("id", JStr "t2"); ("name", JStr "clock")]) in
  registry_entry Tools (snd (create no_keys repr_blank Tools st p))
    (JStr "t1") =
    Some (ATool (mkFunction (JStr "search") (JStr "") (JObj []))).
Proof.
  intros st p.
  exact (create_touches_one_entry no_keys repr_blank Tools st p (JStr "t2")
           Tools (JStr "t1") eq_refl (or_intror eq_refl)).
Defined.

(** The config sets the temperature and also carries an api_key: the
    temperature is taken, the key is not. *)
Lemma create_model_config_fields_witness :
  let req :=
    Body (JObj [("id", JStr "c"); ("type", JStr "Anthropic");
                ("config", JObj [("temperature", JInt 1);
                                 ("api_key", JStr "from the request")])]) in
  dict_find (JStr "c")
    (models (snd (create_model no_keys repr_blank initial req))) =
    Some (mkModel Claude (JStr "claude-3-7-sonnet-20250219")
            (JStr "Default Model") JNull (JInt 1) JNull JNull).
Proof.
  intros req.
  exact (create_model_config_fields no_keys repr_blank initial req
           [("id", JStr "c"); ("type", JStr "Anthropic");
            ("config", JObj [("temperature", JInt 1);
                             ("api_key", JStr "from the request")])]
           [("temperature", JInt 1); ("api_key", JStr "from the request")]
           "Anthropic" eq_refl eq_refl (or_intror eq_refl) eq_refl eq_refl).
Defined.

Lemma create_model_type_not_string_witness :
  create_model no_keys repr_blank initial (Body (JObj [("type", JInt 3)])) =
    (ServerError AttributeError, initial).
Proof.
  refine (create_model_type_not_string no_keys repr_blank initial
            (Body (JObj [("type", JInt 3)])) [("type", JInt 3)] (JInt 3)
            eq_refl eq_refl _).
  intros s; discriminate.
Defined.

Lemma create_model_list_body_witness :
  status_code
    (fst (create_model no_keys repr_blank initial
            (Body (JArr [JInt 1; JStr "x"])))) = 200 /\
  dict_keys
    (models (snd (create_model no_keys repr_blank initial
                    (Body (JArr [JInt 1; JStr "x"]))))) =
    [JStr "default-model"].
Proof.
  rewrite (create_model_list_body no_keys repr_blank initial
             [JInt 1; JStr "x"] eq_refl eq_refl eq_refl eq_refl).
  split; reflexivity.
Defined.

Lemma non_object_body_refused_witness :
  create_tool initial (Body (JArr [])) = (ServerError AttributeError, initial).
Proof.
  exact (proj1 (proj2 (non_object_body_refused repr_blank initial (JArr [])
                         "m" "a" "mem" (fun H => H)))).
Defined.

Lemma unknown_model_refused_witness :
  let req := Body (JObj [("id", JStr "a1"); ("modelId", JStr "gpt")]) in
  let refusal :=
    Reply 404 (JObj [("error", JStr "Model gpt not found")]) in
  create_agent repr_blank initial req = (refusal, initial) /\
  create_memory_manager repr_blank initial req = (refusal, initial).
Proof.
  intros req refusal.
  exact (unknown_model_refused repr_blank initial req
           [("id", JStr "a1"); ("modelId", JStr "gpt")] (JStr "gpt")
           eq_refl eq_refl eq_refl eq_refl eq_refl).
Defined.

Lemma unknown_id_refused_witness :
  run_agent repr_blank initial "ghost" (Body (JObj [])) =
    (Reply 404 (JObj [("error", JStr "Agent ghost not found")]), initial) /\
  add_memory initial "ghost" (Body (JObj [])) =
    (Reply 404 (JObj [("error", JStr "Memory manager ghost not found")]),
     initial).
Proof.
  destruct (unknown_id_refused repr_blank initial "ghost" (Body (JObj [])))
    as (H1 & H2).
  split; [exact (H1 eq_refl) | exact (H2 eq_refl)].
Defined.

(** A model is registered under the empty id; an agent that asks for the
    model id '' gets no model. *)
Lemma create_agent_stored_witness :
  let st := snd (create_model no_keys repr_blank initial
                   (Body (JObj [("id", JStr "")]))) in
  let req := Body (JObj [("id", JStr "a1"); ("modelId", JStr "")]) in
  is_some (dict_find (JStr "") (models st)) = true /\
  dict_find (JStr "a1") (agents (snd (create_agent repr_blank st req))) =
    Some (mkAgent (JStr "Default Agent") (JStr "a1") None (JStr "") []
            JNull JNull).
Proof.
  intros st req. split; [reflexivity|].
  exact (create_agent_stored repr_blank st req
           [("id", JStr "a1"); ("modelId", JStr "")] []
           eq_refl eq_refl (Forall_nil _) eq_refl eq_refl).
Defined.

Lemma session_id_sticky_witness :
  let st := snd (create_agent repr_blank initial
                   (Body (JObj [("id", JStr "a1")]))) in
  let st1 := snd (run_agent repr_blank st "a1"
                    (Body (JObj [("message", JStr "hi");
                                 ("workspaceId", JInt 7)]))) in
  let st2 := snd (run_agent repr_blank st1 "a1"
                    (Body (JObj [("message", JStr "again")]))) in
  exists a2,
    dict_find (JStr "a1") (agents st2) = Some a2 /\
    session_id a2 = JStr "7" /\
    user_message a2 = JStr "again".
Proof.
  intros st st1 st2.
  exact (session_id_sticky repr_blank st "a1"
           (Body (JObj [("message", JStr "hi"); ("workspaceId", JInt 7)]))
           (Body (JObj [("message", JStr "again")]))
           [("message", JStr "hi"); ("workspaceId", JInt 7)]
           [("message", JStr "again")]
           (mkAgent (JStr "Default Agent") (JStr "a1") None (JStr "") []
              JNull JNull)
           eq_refl eq_refl eq_refl eq_refl eq_refl).
Defined.

Lemma model_agent_run_witness :
  "m1" <> "" /\
  let st1 :=
    snd (create_model no_keys repr_blank initial
           (Body (JObj [("id", JStr "m1"); ("type", JStr "OpenAI")]))) in
  let st2 :=
    snd (create_agent repr_blank st1
           (Body (JObj [("id", JStr "a1"); ("name", JStr "Ann");
                        ("modelId", JStr "m1")]))) in
  fst (run_agent repr_blank st2 "a1" (Body (JObj [("message", JStr "hi")]))) =
    Reply 200
      (JObj [("content",
              JStr "I am Ann, executing a response based on: hi");
             ("agentId", JStr "a1"); ("workspaceId", JNull)]).
Proof.
  assert (H : "m1" <> "") by discriminate.
  split; [exact H|].
  exact (model_agent_run no_keys repr_blank initial "m1" "OpenAI" "a1" "Ann"
           "hi" H (or_introl eq_refl)).
Defined.

Lemma generate_unusable_messages_witness :
  let st := snd (create_model no_keys repr_blank initial
                   (Body (JObj [("id", JStr "m1")]))) in
  let msgs := [JObj [("role", JStr "user"); ("content", JStr "hi")];
               JInt 5] in
  generate_response st "m1" (Body (JObj [("messages", JArr msgs)])) =
    (ServerError TypeError, st).
Proof.
  intros st msgs.
  refine (generate_unusable_messages st "m1"
            (Body (JObj [("messages", JArr msgs)]))
            [("messages", JArr msgs)] (JArr msgs) _
            eq_refl eq_refl eq_refl _).
  right. exists msgs. split; [reflexivity|].
  apply Exists_cons_tl, Exists_cons_hd. exact I.
Defined.

Lemma add_memory_limit_not_a_number_witness :
  let st := snd (create_memory_manager repr_blank initial
                   (Body (JObj [("id", JStr "mem");
                                ("limit", JStr "10")]))) in
  add_memory st "mem" (Body (JObj [("content", JStr "a")])) =
    (ServerError TypeError, st).
Proof.
  intros st.
  exact (add_memory_limit_not_a_number st "mem"
           (Body (JObj [("content", JStr "a")])) [("content", JStr "a")]
           (new_MemoryManager None (JStr "10")) eq_refl eq_refl eq_refl).
Defined.

Lemma add_memory_limit_not_positive_witness :
  let st := snd (create_memory_manager repr_blank initial
                   (Body (JObj [("id", JStr "mem"); ("limit", JInt 0)]))) in
  add_memory st "mem" (Body (JObj [("content", JStr "a")])) =
    (ServerError IndexError, st).
Proof.
  intros st.
  refine (add_memory_limit_not_positive st "mem"
            (Body (JObj [("content", JStr "a")])) [("content", JStr "a")]
            (new_MemoryManager None (JInt 0)) (inject_Z 0)
            eq_refl eq_refl _ eq_refl eq_refl).
  vm_compute; discriminate.
Defined.

(** A limit of 2.5 and four adds: the store holds at most 3 entries. *)
Lemma memory_bound_any_numeric_limit_witness :
  let st := snd (create_memory_manager repr_blank initial
                   (Body (JObj [("id", JStr "mem");
                                ("limit", JFloat (5 # 2))]))) in
  let reqs := [Body (JObj [("content", JStr "a")]);
               Body (JObj [("content", JStr "b")]);
               Body (JArr []);
               Body (JObj [("content", JStr "c")]);
               Body (JObj [("content", JStr "d")])] in
  exists mm',
    dict_find (JStr "mem") (memory_managers (add_requests st "mem" reqs)) =
      Some mm' /\
    limit mm' = JFloat (5 # 2) /\
    Z.of_nat (List.length (memories mm')) <= 3.
Proof.
  intros st reqs.
  refine (memory_bound_any_numeric_limit "mem" (5 # 2) 3 reqs st
            (new_MemoryManager None (JFloat (5 # 2)))
            eq_refl eq_refl _ _); vm_compute; discriminate.
Defined.
